(** * The cryptographic seal of the omnissiah engine

    A shallow embedding of [src/cryptographic_seal.py]: the classes
    [CryptographicSeal] and [HierarchicalSeal], together with the parts of
    the Python runtime they go through (exceptions, [str]/[bytes]
    conversion, [base64], dictionaries).  The Ed25519 primitive and the PEM
    serialisation of the [cryptography] package are an interface
    ([Ed25519Backend]); their documented laws are stated as propositions and
    appear as hypotheses of the theorems that need them. *)

From Stdlib Require Import ZArith NArith List Bool Lia.
From Stdlib.Strings Require Import String Ascii Byte.
From stdpp Require Import base option list gmap strings.

Local Open Scope N_scope.

(** ** Python data: bytes, strings, exceptions *)

(** [bytes]: an immutable sequence of octets. *)
Abbreviation bytes := (list byte).

(** [str]: a sequence of Unicode code points (each below [0x110000]). *)
Abbreviation pystr := (list N).

(** A [str] literal whose characters are all ASCII. *)
Definition lit (s : string) : pystr :=
  map (fun a => N_of_ascii a) (list_ascii_of_string s).

(** A [bytes] literal, [b"..."]. *)
Definition blit (s : string) : bytes := list_byte_of_string s.

(** Storing into an [unsigned char]: the value is cut to eight bits. *)
Definition u8 (n : N) : byte :=
  match Byte.of_N (n mod 256) with
  | Some b => b
  | None => x00
  end.

(** The numbers [0 .. n-1], to check a property of bytes or of six-bit groups
    on all of them. *)
Definition below (n : nat) : list N := map N.of_nat (seq 0 n).

(** Every byte is a 7-bit character. *)
Definition ascii_only (bs : bytes) : bool :=
  forallb (fun b => Byte.to_N b <? 0x80) bs.

(** Why [binascii.a2b_base64] raised [binascii.Error]. *)
Inductive binascii_error : Type :=
| IncorrectPadding                 (* "Incorrect padding" *)
| InvalidLength (ndata : N).       (* "... number of data characters (n) cannot
                                      be 1 more than a multiple of 4" *)

(** The exceptions that travel through the module.  The argument of
    [ValueError] stands for its message; [VerificationFailed e] is
    [f"Signature verification failed: {e}"]. *)
Inductive exn : Type :=
| InvalidSignature                 (* cryptography.exceptions.InvalidSignature *)
| BinasciiError (why : binascii_error)   (* binascii.Error, a ValueError *)
| ValueError (why : value_error)
| TypeError
| KeyError (key : pystr)
| AttributeError
| UnicodeEncodeError
| UnicodeDecodeError
with value_error : Type :=
| SignatureRequired                (* "Signature required for verification" *)
| VerificationFailed (cause : exn)
| NonAsciiArgument                 (* raised by base64 on a non-ASCII str *)
| UndecodablePEM.                  (* raised by the PEM loaders *)

(** [isinstance(e, ValueError)]: [binascii.Error] and the Unicode errors
    derive from [ValueError]. *)
Definition is_ValueError (e : exn) : bool :=
  match e with
  | ValueError _ | BinasciiError _ | UnicodeEncodeError | UnicodeDecodeError => true
  | _ => false
  end.

(** The outcome of a call: a value, or a raised exception. *)
Inductive result (A : Type) : Type :=
| Return (a : A)
| Raise (e : exn).
Arguments Return {A} a.
Arguments Raise {A} e.

#[global] Instance result_ret : MRet result := fun A a => Return a.
#[global] Instance result_bind : MBind result := fun A B f m =>
  match m with
  | Return a => f a
  | Raise e => Raise e
  end.
#[global] Instance result_fmap : FMap result := fun A B f m =>
  match m with
  | Return a => Return (f a)
  | Raise e => Raise e
  end.

(** [try: body  except Exception as e: handler e]; every constructor of
    [exn] is a subclass of [Exception]. *)
Definition try_except {A : Type} (body : result A) (handler : exn -> result A)
  : result A :=
  match body with
  | Return a => Return a
  | Raise e => handler e
  end.

(** ** [str.encode] and [bytes.decode] *)

Module Codec.

(** The UTF-8 image of one code point; surrogates cannot be encoded. *)
Definition utf8_encode_cp (c : N) : result bytes :=
  if c <? 0x80 then Return [u8 c]
  else if c <? 0x800 then
    Return [u8 (N.lor 0xC0 (N.shiftr c 6)); u8 (N.lor 0x80 (N.land c 0x3F))]
  else if c <? 0x10000 then
    if (0xD800 <=? c) && (c <=? 0xDFFF) then Raise UnicodeEncodeError
    else Return [u8 (N.lor 0xE0 (N.shiftr c 12));
                 u8 (N.lor 0x80 (N.land (N.shiftr c 6) 0x3F));
                 u8 (N.lor 0x80 (N.land c 0x3F))]
  else if c <? 0x110000 then
    Return [u8 (N.lor 0xF0 (N.shiftr c 18));
            u8 (N.lor 0x80 (N.land (N.shiftr c 12) 0x3F));
            u8 (N.lor 0x80 (N.land (N.shiftr c 6) 0x3F));
            u8 (N.lor 0x80 (N.land c 0x3F))]
  else Raise UnicodeEncodeError.

(** [s.encode()]: UTF-8, strict. *)
Fixpoint str_encode (s : pystr) : result bytes :=
  match s with
  | [] => Return []
  | c :: s' =>
      b ← utf8_encode_cp c;
      bs ← str_encode s';
      Return (b ++ bs)
  end.

(** [s.encode('ascii')]. *)
Fixpoint ascii_encode (s : pystr) : result bytes :=
  match s with
  | [] => Return []
  | c :: s' =>
      if c <? 0x80 then cons (u8 c) <$> ascii_encode s'
      else Raise UnicodeEncodeError
  end.

(** A continuation byte whose value lies in [lo .. hi]. *)
Definition between (lo hi : N) (b : byte) : bool :=
  (lo <=? Byte.to_N b) && (Byte.to_N b <=? hi).

Definition low6 (b : byte) : N := N.land (Byte.to_N b) 0x3F.

(** [b.decode()]: UTF-8, strict (no overlong forms, no surrogates, nothing
    above [0x10FFFF]). *)
Fixpoint bytes_decode (bs : bytes) : result pystr :=
  match bs with
  | [] => Return []
  | b0 :: r0 =>
      let c0 := Byte.to_N b0 in
      if c0 <? 0x80 then cons c0 <$> bytes_decode r0
      else if between 0xC2 0xDF b0 then
        match r0 with
        | b1 :: r1 =>
            if between 0x80 0xBF b1
            then cons (N.lor (N.shiftl (N.land c0 0x1F) 6) (low6 b1))
                   <$> bytes_decode r1
            else Raise UnicodeDecodeError
        | _ => Raise UnicodeDecodeError
        end
      else if between 0xE0 0xEF b0 then
        match r0 with
        | b1 :: b2 :: r2 =>
            let lo := if c0 =? 0xE0 then 0xA0 else 0x80 in
            let hi := if c0 =? 0xED then 0x9F else 0xBF in
            if between lo hi b1 && between 0x80 0xBF b2
            then cons (N.lor (N.shiftl (N.land c0 0x0F) 12)
                         (N.lor (N.shiftl (low6 b1) 6) (low6 b2)))
                   <$> bytes_decode r2
            else Raise UnicodeDecodeError
        | _ => Raise UnicodeDecodeError
        end
      else if between 0xF0 0xF4 b0 then
        match r0 with
        | b1 :: b2 :: b3 :: r3 =>
            let lo := if c0 =? 0xF0 then 0x90 else 0x80 in
            let hi := if c0 =? 0xF4 then 0x8F else 0xBF in
            if between lo hi b1 && between 0x80 0xBF b2 && between 0x80 0xBF b3
            then cons (N.lor (N.shiftl (N.land c0 0x07) 18)
                         (N.lor (N.shiftl (low6 b1) 12)
                            (N.lor (N.shiftl (low6 b2) 6) (low6 b3))))
                   <$> bytes_decode r3
            else Raise UnicodeDecodeError
        | _ => Raise UnicodeDecodeError
        end
      else Raise UnicodeDecodeError
  end.

(** The [str] of an ASCII byte string. *)
Definition code_points (bs : bytes) : pystr := map Byte.to_N bs.

End Codec.

(** ** The [base64] module

    [base64.b64encode] is [binascii.b2a_base64] without the trailing newline;
    [base64.b64decode] with [validate=False] is [binascii.a2b_base64] in its
    lenient mode, which skips every character outside the alphabet. *)

Module Base64.

Definition table_b2a_base64 : bytes :=
  blit "ABCDEFGHIJKLMNOPQRSTUVWXYZabcdefghijklmnopqrstuvwxyz0123456789+/".

Definition BASE64_PAD : byte := "=".

(** The character of a six-bit group. *)
Definition b2a (v : N) : byte := nth (N.to_nat v) table_b2a_base64 BASE64_PAD.

(** The six-bit value of a character; 255 marks a character outside the
    alphabet, and the pad character maps to 0 as in the C table. *)
Definition table_a2b_base64 (ch : byte) : N :=
  let c := Byte.to_N ch in
  if (65 <=? c) && (c <=? 90) then c - 65
  else if (97 <=? c) && (c <=? 122) then c - 71
  else if (48 <=? c) && (c <=? 57) then c + 4
  else if c =? 43 then 62
  else if c =? 47 then 63
  else if c =? 61 then 0
  else 255.

(** The characters of one, two or three input bytes. *)
Definition enc1 (a : byte) : bytes :=
  let x := Byte.to_N a in
  [b2a (N.shiftr x 2); b2a (N.shiftl (N.land x 3) 4); BASE64_PAD; BASE64_PAD].

Definition enc2 (a b : byte) : bytes :=
  let x := Byte.to_N a in
  let y := Byte.to_N b in
  [b2a (N.shiftr x 2);
   b2a (N.lor (N.shiftl (N.land x 3) 4) (N.shiftr y 4));
   b2a (N.shiftl (N.land y 0xf) 2);
   BASE64_PAD].

Definition enc3 (a b c : byte) : bytes :=
  let x := Byte.to_N a in
  let y := Byte.to_N b in
  let z := Byte.to_N c in
  [b2a (N.shiftr x 2);
   b2a (N.lor (N.shiftl (N.land x 3) 4) (N.shiftr y 4));
   b2a (N.lor (N.shiftl (N.land y 0xf) 2) (N.shiftr z 6));
   b2a (N.land z 0x3f)].

(** [base64.b64encode(s)]. *)
Fixpoint b64encode (s : bytes) : bytes :=
  match s with
  | [] => []
  | [a] => enc1 a
  | [a; b] => enc2 a b
  | a :: b :: c :: rest => enc3 a b c ++ b64encode rest
  end.

(** The loop of [binascii.a2b_base64], lenient mode.  [quad_pos] counts the
    characters of the current group of four, [leftchar] holds the bits not
    yet written, [pads] the pad characters seen in a row, [bin_data] the
    output so far, last byte first. *)
Fixpoint a2b_loop (ascii_data : bytes) (quad_pos : N) (leftchar : N)
    (pads : N) (bin_data : bytes) : result bytes :=
  match ascii_data with
  | [] =>
      if quad_pos =? 0 then Return (rev bin_data)
      else if quad_pos =? 1 then
        Raise (BinasciiError
                 (InvalidLength (N.of_nat (length bin_data) / 3 * 4 + 1)))
      else Raise (BinasciiError IncorrectPadding)
  | this_ch :: rest =>
      if Byte.eqb this_ch BASE64_PAD then
        if 2 <=? quad_pos then
          if 4 <=? quad_pos + (pads + 1) then Return (rev bin_data)
          else a2b_loop rest quad_pos leftchar (pads + 1) bin_data
        else a2b_loop rest quad_pos leftchar pads bin_data
      else
        let v := table_a2b_base64 this_ch in
        if 64 <=? v then a2b_loop rest quad_pos leftchar pads bin_data
        else if quad_pos =? 0 then a2b_loop rest 1 v 0 bin_data
        else if quad_pos =? 1 then
          a2b_loop rest 2 (N.land v 0x0f) 0
            (u8 (N.lor (N.shiftl leftchar 2) (N.shiftr v 4)) :: bin_data)
        else if quad_pos =? 2 then
          a2b_loop rest 3 (N.land v 0x03) 0
            (u8 (N.lor (N.shiftl leftchar 4) (N.shiftr v 2)) :: bin_data)
        else
          a2b_loop rest 0 0 0
            (u8 (N.lor (N.shiftl leftchar 6) v) :: bin_data)
  end.

Definition a2b_base64 (data : bytes) : result bytes :=
  a2b_loop data 0 0 0 [].

(** The arithmetic the round trip rests on, as a check on two neighbouring
    bytes [x] and [y]: the six-bit groups the encoder cuts are below 64,
    and the shifts of the decoder put the bytes together again. *)
Definition groups_ok (x y : N) : bool :=
  let s0 := N.shiftr x 2 in
  let s1 := N.lor (N.shiftl (N.land x 3) 4) (N.shiftr y 4) in
  let t1 := N.shiftl (N.land x 3) 4 in
  let s2 := N.lor (N.shiftl (N.land x 0xf) 2) (N.shiftr y 6) in
  let t2 := N.shiftl (N.land x 0xf) 2 in
  let s3 := N.land y 0x3f in
  (s0 <? 64) && (s1 <? 64) && (t1 <? 64) && (s2 <? 64) && (t2 <? 64)
  && (s3 <? 64)
  && (N.lor (N.shiftl s0 2) (N.shiftr s1 4) =? x)
  && (N.lor (N.shiftl s0 2) (N.shiftr t1 4) =? x)
  && (N.land s1 0xf =? N.shiftr y 4)
  && (N.shiftr s2 2 =? N.land x 0xf)
  && (N.shiftr t2 2 =? N.land x 0xf)
  && (N.lor (N.shiftl (N.land s2 3) 6) s3 =? y)
  && (N.lor (N.shiftl (N.shiftr x 4) 4) (N.land x 0xf) =? x).

End Base64.

(** The text [sign] returns for the raw signature [raw]: its base64
    characters as a [str]. *)
Definition signature_text (raw : bytes) : pystr :=
  Codec.code_points (Base64.b64encode raw).

(** ** Python values

    The values a caller can put into the dictionaries handed to
    [verify_sealed_covenant] and [verify_complete_seal].  A [float] is the
    dyadic rational [m * 2^e]. *)

#[local] Unset Elimination Schemes.
Inductive pyval : Type :=
| VNone
| VBool (b : bool)
| VInt (n : Z)
| VFloat (m e : Z)
| VStr (s : pystr)
| VBytes (b : bytes)
| VList (l : list pyval)
| VDict (d : gmap pystr pyval).
#[local] Set Elimination Schemes.

(** [obj[key]] for a [str] key: a dictionary is looked up, the sequence types
    reject a non-integer index, the other values cannot be subscripted. *)
Definition subscript (obj : pyval) (key : pystr) : result pyval :=
  match obj with
  | VDict d =>
      match d !! key with
      | Some v => Return v
      | None => Raise (KeyError key)
      end
  | _ => Raise TypeError
  end.

(** [obj.encode()]: only [str] has the method. *)
Definition encode (obj : pyval) : result bytes :=
  match obj with
  | VStr s => Codec.str_encode s
  | _ => Raise AttributeError
  end.

(** [obj[:n]]: the sequence types give their first [n] items; the other
    values cannot be sliced (a dictionary rejects the slice as a key). *)
Definition slice_prefix (obj : pyval) (n : nat) : result pyval :=
  match obj with
  | VStr s => Return (VStr (take n s))
  | VBytes b => Return (VBytes (take n b))
  | VList l => Return (VList (take n l))
  | _ => Raise TypeError
  end.

(** [obj + s] for a [str] [s]: only a [str] can be extended by one. *)
Definition add_str (obj : pyval) (s : pystr) : result pyval :=
  match obj with
  | VStr t => Return (VStr (t ++ s))
  | _ => Raise TypeError
  end.

(** [s.encode()] for an optional [str] argument; [None] has no such
    method. *)
Definition str_arg_encode (s : option pystr) : result bytes :=
  match s with
  | Some t => Codec.str_encode t
  | None => Raise AttributeError
  end.

(** Truth value of an optional [str] argument: [None] and [""] are false. *)
Definition truthy (s : option pystr) : bool :=
  match s with
  | None | Some [] => false
  | Some (_ :: _) => true
  end.

(** [base64.b64decode(s)]: a [str] must be ASCII, [bytes] are taken as they
    are, anything else is not bytes-like. *)
Definition b64decode (s : pyval) : result bytes :=
  match s with
  | VStr t =>
      data ← try_except (Codec.ascii_encode t)
                (fun _ => Raise (ValueError NonAsciiArgument));
      Base64.a2b_base64 data
  | VBytes data => Base64.a2b_base64 data
  | _ => Raise TypeError
  end.

(** ** The [cryptography] package

    What the module uses of [cryptography.hazmat]: Ed25519 keys, signing and
    verification, and PEM serialisation.  [pk_verify pk signature data] is
    [true] when [Ed25519PublicKey.verify] returns and [false] when it raises
    [InvalidSignature].  Signing is a function of key and message, as
    Ed25519 is deterministic.  The loaders stand for their behaviour on
    Ed25519 key material; a PEM file holding a key of another algorithm is
    outside the model.  The constructor makes no scheme check: from such a
    file it builds an instance on which [sign] raises [AttributeError] or
    [TypeError].  An instance of the model is therefore one that holds
    Ed25519 keys: every generated instance, and every instance imported from
    PEM files of Ed25519 keys. *)

Class Ed25519Backend : Type := {
  Ed25519PrivateKey : Type;
  Ed25519PublicKey : Type;
  sk_public_key : Ed25519PrivateKey -> Ed25519PublicKey;
  sk_sign : Ed25519PrivateKey -> bytes -> bytes;
  pk_verify : Ed25519PublicKey -> bytes -> bytes -> bool;
  (* private_bytes(PEM, PKCS8, NoEncryption) *)
  sk_private_bytes : Ed25519PrivateKey -> bytes;
  (* public_bytes(PEM, SubjectPublicKeyInfo) *)
  pk_public_bytes : Ed25519PublicKey -> bytes;
  load_pem_private_key : bytes -> result Ed25519PrivateKey;
  load_pem_public_key : bytes -> result Ed25519PublicKey
}.

(** [Ed25519PublicKey.verify(signature, data)]: returns [None] or raises. *)
Definition Ed25519PublicKey_verify `{Ed25519Backend}
    (pk : Ed25519PublicKey) (signature data : bytes) : result unit :=
  if pk_verify pk signature data then Return tt else Raise InvalidSignature.

(** ** class [CryptographicSeal] *)

Module CryptographicSeal.
Section WithBackend.
Context `{Ed25519Backend}.

Definition COVENANT_MESSAGE : bytes := blit "CHICKA_CHICKA_ORANGE".

Record t : Type := Seal {
  private_key : Ed25519PrivateKey;
  public_key : Ed25519PublicKey
}.

(** The constructor.  [fresh] is the key [Ed25519PrivateKey.generate()]
    draws from the system's random source; it is looked at only on the
    branch that generates. *)
Definition __init__ (fresh : Ed25519PrivateKey)
    (private_key_pem public_key_pem : option pystr) : result t :=
  if truthy private_key_pem && truthy public_key_pem then
    priv ← str_arg_encode private_key_pem;
    sk ← load_pem_private_key priv;
    pub ← str_arg_encode public_key_pem;
    pk ← load_pem_public_key pub;
    Return (Seal sk pk)
  else
    Return (Seal fresh (sk_public_key fresh)).

Definition get_private_key_pem (self : t) : result pystr :=
  let pem := sk_private_bytes (private_key self) in
  Codec.bytes_decode pem.

Definition get_public_key_pem (self : t) : result pystr :=
  let pem := pk_public_bytes (public_key self) in
  Codec.bytes_decode pem.

Definition sign (self : t) (message : option bytes) : result pystr :=
  let message := default COVENANT_MESSAGE message in
  let signature := sk_sign (private_key self) message in
  Codec.bytes_decode (Base64.b64encode signature).

Definition verify (self : t) (message : option bytes)
    (signature_b64 : pyval) : result bool :=
  let message := default COVENANT_MESSAGE message in
  match signature_b64 with
  | VNone => Raise (ValueError SignatureRequired)
  | _ =>
      signature ← b64decode signature_b64;
      try_except
        (_ ← Ed25519PublicKey_verify (public_key self) signature message;
         Return true)
        (fun e => Raise (ValueError (VerificationFailed e)))
  end.

Definition create_sealed_covenant (self : t) : result pyval :=
  signature ← sign self None;
  covenant ← Codec.bytes_decode COVENANT_MESSAGE;
  pem ← get_public_key_pem self;
  Return (VDict (<[lit "covenant" := VStr covenant]>
                (<[lit "signature" := VStr signature]>
                (<[lit "algorithm" := VStr (lit "Ed25519")]>
                (<[lit "public_key" := VStr pem]>
                (<[lit "verified" := VBool true]> ∅)))))).

Definition verify_sealed_covenant (self : t) (sealed_covenant : pyval)
    : result bool :=
  covenant ← subscript sealed_covenant (lit "covenant");
  message ← encode covenant;
  signature ← subscript sealed_covenant (lit "signature");
  verify self (Some message) signature.

End WithBackend.
End CryptographicSeal.

(** ** class [HierarchicalSeal] *)

Module HierarchicalSeal.
Section WithBackend.
Context `{Ed25519Backend}.

Record t : Type := Seal {
  crypto_seal : CryptographicSeal.t;
  hieroglyphic_sigil : pystr;
  metaphoric_covenant : pystr
}.

Definition __init__ (fresh : Ed25519PrivateKey) : result t :=
  crypto ← CryptographicSeal.__init__ fresh None None;
  Return (Seal crypto
            [8706; 8711; 916; 8211; 77; 77; 8211; 916; 32; 8226; 32; 56;
             8734; 83; 83; 772; 9651; 9651]
            (lit "CHICKA_CHICKA_ORANGE")).

(** The float literal [0.85], the double [7656119366529843 * 2^-53]. *)
Definition ontology : pyval := VFloat 7656119366529843 (-53).

Definition create_complete_seal (self : t) : result pyval :=
  crypto_seal ← CryptographicSeal.create_sealed_covenant (crypto_seal self);
  signature ← subscript crypto_seal (lit "signature");
  head ← slice_prefix signature 16;
  hash ← add_str head (lit "...");
  algorithm ← subscript crypto_seal (lit "algorithm");
  full_signature ← subscript crypto_seal (lit "signature");
  public_key ← subscript crypto_seal (lit "public_key");
  Return
    (VDict
       (<[lit "integrity" :=
            VDict (<[lit "hash" := hash]>
                  (<[lit "algorithm" := algorithm]>
                  (<[lit "full_signature" := full_signature]>
                  (<[lit "public_key" := public_key]> ∅))))]>
       (<[lit "sigil" := VStr (hieroglyphic_sigil self)]>
       (<[lit "covenant" := VStr (metaphoric_covenant self)]>
       (<[lit "orientation" :=
            VDict (<[lit "ontology" := ontology]>
                  (<[lit "relational" := VStr (lit "delta")]>
                  (<[lit "temporal" := VStr (lit "persistent")]>
                  (<[lit "phase" := VStr (lit "field-aligned")]> ∅))))]>
       (<[lit "verification" :=
            VDict (<[lit "status" := VStr (lit "VERIFIED")]>
                  (<[lit "method" := VStr (lit "Ed25519 Asymmetric Signature")]>
                  (<[lit "message" := VStr (lit "CHICKA_CHICKA_ORANGE")]> ∅)))]>
        ∅)))))).

(** The handler also prints the exception; the print is left out. *)
Definition verify_complete_seal (self : t) (sealed_object : pyval)
    : result bool :=
  try_except
    (covenant ← subscript sealed_object (lit "covenant");
     integrity ← subscript sealed_object (lit "integrity");
     full_signature ← subscript integrity (lit "full_signature");
     integrity' ← subscript sealed_object (lit "integrity");
     public_key ← subscript integrity' (lit "public_key");
     let sealed_covenant :=
       VDict (<[lit "covenant" := covenant]>
             (<[lit "signature" := full_signature]>
             (<[lit "public_key" := public_key]> ∅))) in
     CryptographicSeal.verify_sealed_covenant (crypto_seal self)
       sealed_covenant)
    (fun e => Return false).

End WithBackend.
End HierarchicalSeal.

(** ** Laws of the Ed25519 primitive and of PEM serialisation *)

Section Laws.
Context `{Ed25519Backend}.

(** RFC 8032: a signature verifies under the public key of the private key
    that made it. *)
Definition sign_verify_law : Prop :=
  forall sk m, pk_verify (sk_public_key sk) (sk_sign sk m) m = true.

(** An Ed25519 signature has 64 bytes; anything else is rejected. *)
Definition signature_length_law : Prop :=
  forall pk sig m, pk_verify pk sig m = true -> length sig = 64%nat.

(** A PEM file is a non-empty ASCII text, and loading what was exported
    gives the key back. *)
Definition pem_private_law : Prop :=
  forall sk,
    sk_private_bytes sk <> [] /\
    ascii_only (sk_private_bytes sk) = true /\
    load_pem_private_key (sk_private_bytes sk) = Return sk.

Definition pem_public_law : Prop :=
  forall pk,
    pk_public_bytes pk <> [] /\
    ascii_only (pk_public_bytes pk) = true /\
    load_pem_public_key (pk_public_bytes pk) = Return pk.

(** The class invariant of the data model: the public key is the one of
    the private key. *)
Definition key_pair_consistent (seal : CryptographicSeal.t) : Prop :=
  CryptographicSeal.public_key seal
  = sk_public_key (CryptographicSeal.private_key seal).

(** A signature argument is structurally valid when it decodes from
    base64 to the 64 bytes of an Ed25519 signature. *)
Definition structurally_valid (signature_b64 : pyval) : Prop :=
  exists raw, b64decode signature_b64 = Return raw /\ length raw = 64%nat.

End Laws.

(** The message of the tampering scenario. *)
Definition ALTERED_MESSAGE : bytes := blit "ALTERED_MESSAGE".

(** ** A reference backend

    A small instance of the interface on which the laws hold: keys are byte
    strings, a signature is the first 64 bytes of public key, message and
    zero padding, and a PEM file is a header, the base64 text of the key and
    a footer.  It is a keyed checksum, not Ed25519; it serves to run the
    module on concrete inputs. *)

Module Reference.

Fixpoint bytes_eqb (a b : bytes) : bool :=
  match a, b with
  | [], [] => true
  | x :: a', y :: b' => Byte.eqb x y && bytes_eqb a' b'
  | _, _ => false
  end.

Definition tag (pk m : bytes) : bytes :=
  take 64 (pk ++ m ++ repeat x00 64).

Definition pem_header (label : string) : bytes :=
  blit "-----BEGIN " ++ blit label ++ blit "-----" ++ [x0a].

Definition pem_footer (label : string) : bytes :=
  [x0a] ++ blit "-----END " ++ blit label ++ blit "-----" ++ [x0a].

Definition load_pem (label : string) (data : bytes) : result bytes :=
  let body :=
    take (length data - length (pem_header label) - length (pem_footer label))
      (drop (length (pem_header label)) data) in
  if bytes_eqb data (pem_header label ++ body ++ pem_footer label) then
    try_except (Base64.a2b_base64 body)
      (fun _ => Raise (ValueError UndecodablePEM))
  else Raise (ValueError UndecodablePEM).

#[export] Instance backend : Ed25519Backend := {|
  Ed25519PrivateKey := bytes;
  Ed25519PublicKey := bytes;
  sk_public_key := fun sk => rev sk;
  sk_sign := fun sk m => tag (rev sk) m;
  pk_verify := fun pk sig m => bytes_eqb sig (tag pk m);
  sk_private_bytes := fun sk => pem_header "PRIVATE KEY" ++ Base64.b64encode sk ++ pem_footer "PRIVATE KEY";
  pk_public_bytes := fun pk => pem_header "PUBLIC KEY" ++ Base64.b64encode pk ++ pem_footer "PUBLIC KEY";
  load_pem_private_key := load_pem "PRIVATE KEY";
  load_pem_public_key := load_pem "PUBLIC KEY"
|}.

(** Two key pairs as the constructor generates them. *)
Definition key_a : bytes := repeat x01 32.
Definition key_b : bytes := repeat x02 32.

Definition seal_a : CryptographicSeal.t :=
  CryptographicSeal.Seal key_a (sk_public_key key_a).
Definition seal_b : CryptographicSeal.t :=
  CryptographicSeal.Seal key_b (sk_public_key key_b).

End Reference.

(** ** What the lenient decoder looks at *)

(** A character the decoder does not skip: the pad character or a
    character of the alphabet. *)
Definition significant (ch : byte) : bool :=
  Byte.eqb ch Base64.BASE64_PAD || (Base64.table_a2b_base64 ch <? 64).

(** A [str] all of whose characters are ASCII. *)
Definition ascii_str (s : pystr) : bool := forallb (fun c => c <? 0x80) s.

(** The characters of an ASCII [str] that the decoder does not skip. *)
Definition significant_chars (s : pystr) : pystr :=
  List.filter (fun c => significant (u8 c)) s.

(** * Properties *)

(** ** Checking a predicate on every small number *)

Lemma below_spec (P : N -> bool) (n : nat) :
  forallb P (below n) = true -> forall v, v < N.of_nat n -> P v = true.
Proof.
  intros Hall v Hv. rewrite forallb_forall in Hall. apply Hall.
  unfold below. apply in_map_iff. exists (N.to_nat v). split; [lia|].
  apply in_seq. lia.
Qed.

Lemma below_spec2 (P : N -> N -> bool) (n : nat) :
  forallb (fun x => forallb (P x) (below n)) (below n) = true ->
  forall x y, x < N.of_nat n -> y < N.of_nat n -> P x y = true.
Proof.
  intros Hall x y Hx Hy.
  apply (below_spec (P x) n); [|exact Hy].
  apply (below_spec (fun x => forallb (P x) (below n)) n Hall x Hx).
Qed.

Lemma byte_lt_256 (b : byte) : Byte.to_N b < 256.
Proof. pose proof (Byte.to_N_bounded b). lia. Qed.

Lemma u8_to_N (b : byte) : u8 (Byte.to_N b) = b.
Proof.
  unfold u8. rewrite N.mod_small by apply byte_lt_256.
  now rewrite Byte.of_to_N.
Qed.


(** ** Base64: decoding what was encoded *)

Module Base64Facts.
Import Base64.

Lemma alphabet (v : N) :
  v < 64 ->
  table_a2b_base64 (b2a v) = v /\
  Byte.eqb (b2a v) BASE64_PAD = false /\
  Byte.to_N (b2a v) < 0x80.
Proof.
  intros Hv.
  pose proof (below_spec
    (fun v => (table_a2b_base64 (b2a v) =? v)
              && negb (Byte.eqb (b2a v) BASE64_PAD)
              && (Byte.to_N (b2a v) <? 0x80)) 64 eq_refl v Hv) as Hc.
  cbv beta in Hc.
  apply andb_true_iff in Hc as [Hc H3]. apply andb_true_iff in Hc as [H1 H2].
  apply N.eqb_eq in H1. apply negb_true_iff in H2. apply N.ltb_lt in H3.
  auto.
Qed.

(** One step of the loop on a character of the alphabet. *)
Lemma a2b_loop_alphabet (v : N) rest quad_pos leftchar pads bin_data :
  v < 64 ->
  a2b_loop (b2a v :: rest) quad_pos leftchar pads bin_data =
    if quad_pos =? 0 then a2b_loop rest 1 v 0 bin_data
    else if quad_pos =? 1 then
      a2b_loop rest 2 (N.land v 0x0f) 0
        (u8 (N.lor (N.shiftl leftchar 2) (N.shiftr v 4)) :: bin_data)
    else if quad_pos =? 2 then
      a2b_loop rest 3 (N.land v 0x03) 0
        (u8 (N.lor (N.shiftl leftchar 4) (N.shiftr v 2)) :: bin_data)
    else
      a2b_loop rest 0 0 0 (u8 (N.lor (N.shiftl leftchar 6) v) :: bin_data).
Proof.
  intros Hv. destruct (alphabet v Hv) as (Ht & Hp & _).
  cbn [a2b_loop]. rewrite Hp, Ht.
  destruct (64 <=? v) eqn:E; [apply N.leb_le in E; lia|reflexivity].
Qed.

Lemma groups (a b : byte) : groups_ok (Byte.to_N a) (Byte.to_N b) = true.
Proof.
  apply (below_spec2 groups_ok 256); [vm_compute; reflexivity| |];
    apply byte_lt_256.
Qed.

Ltac split_groups H :=
  unfold groups_ok in H; cbv zeta in H;
  repeat (let H' := fresh "G" in apply andb_true_iff in H as [H H']);
  repeat match goal with
    | G : (_ <? _) = true |- _ => apply N.ltb_lt in G
    | G : (_ =? _) = true |- _ => apply N.eqb_eq in G
    end.

Lemma a2b_loop_enc3 (a b c : byte) rest leftchar pads bin_data :
  a2b_loop (enc3 a b c ++ rest) 0 leftchar pads bin_data
  = a2b_loop rest 0 0 0 (c :: b :: a :: bin_data).
Proof.
  pose proof (groups a b) as Hab. pose proof (groups b c) as Hbc.
  split_groups Hab. split_groups Hbc.
  unfold enc3. cbn [app].
  rewrite !a2b_loop_alphabet by assumption. cbn [N.eqb Pos.eqb].
  repeat f_equal.
  - match goal with G : _ = Byte.to_N c |- _ => rewrite G end.
    apply u8_to_N.
  - match goal with G : N.land _ 0xf = N.shiftr (Byte.to_N b) 4 |- _ =>
      rewrite G end.
    match goal with G : N.shiftr _ 2 = N.land (Byte.to_N b) 0xf |- _ =>
      rewrite G end.
    match goal with G : _ = Byte.to_N b |- _ => rewrite G end.
    apply u8_to_N.
  - match goal with G : N.lor _ (N.shiftr (N.lor _ _) 4) = Byte.to_N a |- _ =>
      rewrite G end.
    apply u8_to_N.
Qed.

Lemma a2b_loop_enc1 (a : byte) leftchar pads bin_data :
  a2b_loop (enc1 a) 0 leftchar pads bin_data = Return (rev (a :: bin_data)).
Proof.
  pose proof (groups a a) as Ha. split_groups Ha.
  unfold enc1.
  rewrite !a2b_loop_alphabet by assumption. cbn [N.eqb Pos.eqb].
  cbn [a2b_loop]. change (Byte.eqb BASE64_PAD BASE64_PAD) with true.
  cbn [N.leb N.compare Pos.compare Pos.compare_cont N.add Pos.add Pos.succ].
  match goal with G : N.lor _ (N.shiftr (N.shiftl _ 4) 4) = _ |- _ =>
    rewrite G end.
  now rewrite u8_to_N.
Qed.

Lemma a2b_loop_enc2 (a b : byte) leftchar pads bin_data :
  a2b_loop (enc2 a b) 0 leftchar pads bin_data
  = Return (rev (b :: a :: bin_data)).
Proof.
  pose proof (groups a b) as Hab. pose proof (groups b b) as Hb.
  split_groups Hab. split_groups Hb.
  unfold enc2.
  rewrite !a2b_loop_alphabet by assumption. cbn [N.eqb Pos.eqb].
  cbn [a2b_loop]. change (Byte.eqb BASE64_PAD BASE64_PAD) with true.
  cbn [N.leb N.compare Pos.compare Pos.compare_cont N.add Pos.add Pos.succ].
  match goal with G : N.land _ 0xf = N.shiftr (Byte.to_N b) 4 |- _ =>
    rewrite G end.
  match goal with G : N.shiftr (N.shiftl _ 2) 2 = _ |- _ => rewrite G end.
  match goal with G : N.lor (N.shiftl (N.shiftr _ 4) 4) _ = _ |- _ =>
    rewrite G end.
  match goal with G : N.lor _ (N.shiftr (N.lor _ _) 4) = Byte.to_N a |- _ =>
    rewrite G end.
  now rewrite !u8_to_N.
Qed.

(** Induction over a list three elements at a time. *)
Lemma list_ind3 {A} (P : list A -> Prop) :
  P [] -> (forall a, P [a]) -> (forall a b, P [a; b]) ->
  (forall a b c l, P l -> P (a :: b :: c :: l)) ->
  forall l, P l.
Proof.
  intros H0 H1 H2 H3.
  assert (forall l, P l /\ (forall a, P (a :: l))
                    /\ (forall a b, P (a :: b :: l))) as Hall.
  { induction l as [|x l (IH0 & IH1 & IH2)]; [now auto|].
    split; [apply IH1|]. split; [intros a; apply IH2|].
    intros a b. now apply H3. }
  intros l. apply Hall.
Qed.

Lemma a2b_loop_b64encode (s bin_data : bytes) :
  a2b_loop (b64encode s) 0 0 0 bin_data = Return (rev bin_data ++ s).
Proof.
  revert bin_data. induction s as [|a|a b|a b c s IH] using list_ind3;
    intros bin_data.
  - cbn. now rewrite app_nil_r.
  - change (b64encode [a]) with (enc1 a). rewrite a2b_loop_enc1. reflexivity.
  - change (b64encode [a; b]) with (enc2 a b). rewrite a2b_loop_enc2.
    cbn [rev]. now rewrite <- !app_assoc.
  - change (b64encode (a :: b :: c :: s)) with (enc3 a b c ++ b64encode s).
    rewrite a2b_loop_enc3, IH. cbn [rev]. now rewrite <- !app_assoc.
Qed.

(** [b64decode(b64encode(s)) == s] on bytes. *)
Lemma a2b_base64_b64encode (s : bytes) :
  a2b_base64 (b64encode s) = Return s.
Proof. unfold a2b_base64. now rewrite a2b_loop_b64encode. Qed.

Ltac alphabet_ascii :=
  repeat match goal with
    | |- context [Byte.to_N (b2a ?v) <? 0x80] =>
        let E := fresh in
        assert ((Byte.to_N (b2a v) <? 0x80) = true) as E
          by (apply N.ltb_lt, alphabet; assumption);
        rewrite E; clear E
    end;
  reflexivity.

(** The encoder writes ASCII only. *)
Lemma b64encode_ascii (s : bytes) : ascii_only (b64encode s) = true.
Proof.
  induction s as [|a|a b|a b c s IH] using list_ind3; [reflexivity| | |].
  - pose proof (groups a a) as Ha. split_groups Ha.
    unfold ascii_only. cbn [b64encode enc1 forallb].
    alphabet_ascii.
  - pose proof (groups a b) as Hab. pose proof (groups b b) as Hb.
    split_groups Hab. split_groups Hb.
    unfold ascii_only. cbn [b64encode enc2 forallb].
    alphabet_ascii.
  - pose proof (groups a b) as Hab. pose proof (groups b c) as Hbc.
    split_groups Hab. split_groups Hbc.
    change (b64encode (a :: b :: c :: s)) with (enc3 a b c ++ b64encode s).
    unfold ascii_only in *. rewrite forallb_app, IH.
    cbn [enc3 forallb].
    alphabet_ascii.
Qed.
End Base64Facts.

(** ** ASCII text survives [decode] and [encode] *)

Module CodecFacts.
Import Codec.

Lemma bytes_decode_ascii (bs : bytes) :
  ascii_only bs = true -> bytes_decode bs = Return (code_points bs).
Proof.
  induction bs as [|b bs IH]; [reflexivity|].
  unfold ascii_only. cbn [forallb bytes_decode code_points map].
  intros [Hb Hbs]%andb_true_iff. rewrite Hb.
  unfold ascii_only in IH. rewrite (IH Hbs). reflexivity.
Qed.

Lemma ascii_encode_code_points (bs : bytes) :
  ascii_only bs = true -> ascii_encode (code_points bs) = Return bs.
Proof.
  induction bs as [|b bs IH]; [reflexivity|].
  unfold ascii_only. cbn [forallb ascii_encode code_points map].
  intros [Hb Hbs]%andb_true_iff. rewrite Hb.
  unfold ascii_only, code_points in IH. rewrite (IH Hbs).
  cbn. now rewrite u8_to_N.
Qed.

Lemma str_encode_code_points (bs : bytes) :
  ascii_only bs = true -> str_encode (code_points bs) = Return bs.
Proof.
  induction bs as [|b bs IH]; [reflexivity|].
  unfold ascii_only. cbn [forallb str_encode code_points map].
  intros [Hb Hbs]%andb_true_iff.
  unfold utf8_encode_cp. rewrite Hb.
  unfold ascii_only, code_points in IH. rewrite (IH Hbs).
  cbn. now rewrite u8_to_N.
Qed.
End CodecFacts.

(** ** What [sign] and [verify] compute *)

Section SealFacts.
Context `{B : Ed25519Backend}.
Import Codec Base64 Base64Facts CodecFacts.

Lemma sign_returns (self : CryptographicSeal.t) (message : option bytes) :
  CryptographicSeal.sign self message
  = Return (signature_text
              (sk_sign (CryptographicSeal.private_key self)
                 (default CryptographicSeal.COVENANT_MESSAGE message))).
Proof.
  unfold CryptographicSeal.sign. cbv zeta.
  apply bytes_decode_ascii, b64encode_ascii.
Qed.

Lemma b64decode_signature_text (raw : bytes) :
  b64decode (VStr (signature_text raw)) = Return raw.
Proof.
  unfold b64decode, signature_text.
  rewrite ascii_encode_code_points by apply b64encode_ascii.
  cbn. apply a2b_base64_b64encode.
Qed.

Lemma verify_decoded self message signature_b64 raw :
  b64decode signature_b64 = Return raw ->
  CryptographicSeal.verify self message signature_b64
  = if pk_verify (CryptographicSeal.public_key self) raw
         (default CryptographicSeal.COVENANT_MESSAGE message)
    then Return true
    else Raise (ValueError (VerificationFailed InvalidSignature)).
Proof.
  intros Hd. unfold CryptographicSeal.verify. cbv zeta.
  destruct signature_b64; try discriminate Hd;
    rewrite Hd; cbn; unfold Ed25519PublicKey_verify;
    destruct (pk_verify _ _ _); reflexivity.
Qed.

Lemma verify_undecodable self message signature_b64 e :
  signature_b64 <> VNone ->
  b64decode signature_b64 = Raise e ->
  CryptographicSeal.verify self message signature_b64 = Raise e.
Proof.
  intros Hn Hd. unfold CryptographicSeal.verify. cbv zeta.
  destruct signature_b64; try congruence; rewrite Hd; reflexivity.
Qed.

Lemma verify_not_false self message signature_b64 :
  CryptographicSeal.verify self message signature_b64 <> Return false.
Proof.
  destruct (b64decode signature_b64) as [raw|e] eqn:Hd.
  - rewrite (verify_decoded _ _ _ _ Hd).
    destruct (pk_verify _ _ _); discriminate.
  - destruct signature_b64; [discriminate|..];
      (rewrite (verify_undecodable _ _ _ e); [discriminate|discriminate|exact Hd]).
Qed.
(** The decoder raises nothing but [binascii.Error]. *)
Lemma a2b_loop_raises data quad_pos leftchar pads bin_data e :
  a2b_loop data quad_pos leftchar pads bin_data = Raise e ->
  exists why, e = BinasciiError why.
Proof.
  revert quad_pos leftchar pads bin_data.
  induction data as [|ch data IH]; intros quad_pos leftchar pads bin_data;
    cbn [a2b_loop].
  - repeat case_match; intros [= <-]; eauto.
  - repeat case_match; try discriminate; apply IH.
Qed.

Lemma b64decode_str_raises (s : pystr) e :
  b64decode (VStr s) = Raise e -> is_ValueError e = true.
Proof.
  unfold b64decode. destruct (Codec.ascii_encode s) as [data|e'] eqn:E; cbn.
  - intros [why ->]%a2b_loop_raises. reflexivity.
  - intros [= <-]. reflexivity.
Qed.

Lemma bind_Return {A C} (a : A) (f : A -> result C) :
  (Return a ≫= f) = f a.
Proof. reflexivity. Qed.

Lemma truthy_code_points (bs : bytes) :
  bs <> [] -> truthy (Some (code_points bs)) = true.
Proof. destruct bs; [congruence|reflexivity]. Qed.

(** Importing what an instance exports gives the instance back. *)
Lemma init_of_exports (fresh : Ed25519PrivateKey) (k : CryptographicSeal.t) :
  pem_private_law -> pem_public_law ->
  exists private_pem public_pem,
    CryptographicSeal.get_private_key_pem k = Return private_pem /\
    CryptographicSeal.get_public_key_pem k = Return public_pem /\
    CryptographicSeal.__init__ fresh (Some private_pem) (Some public_pem)
    = Return k.
Proof.
  intros Hpriv Hpub. destruct k as [sk pk].
  destruct (Hpriv sk) as (Hne1 & Ha1 & Hl1).
  destruct (Hpub pk) as (Hne2 & Ha2 & Hl2).
  exists (code_points (sk_private_bytes sk)), (code_points (pk_public_bytes pk)).
  split; [now apply bytes_decode_ascii|].
  split; [now apply bytes_decode_ascii|].
  unfold CryptographicSeal.__init__, str_arg_encode.
  rewrite !truthy_code_points by assumption. cbn [andb].
  rewrite !str_encode_code_points by assumption.
  rewrite bind_Return, Hl1, bind_Return, bind_Return, Hl2.
  reflexivity.
Qed.
Lemma verify_true_iff self message signature_b64 :
  CryptographicSeal.verify self message signature_b64 = Return true <->
  exists raw,
    b64decode signature_b64 = Return raw /\
    pk_verify (CryptographicSeal.public_key self) raw
      (default CryptographicSeal.COVENANT_MESSAGE message) = true.
Proof.
  split.
  - destruct (b64decode signature_b64) as [raw|e] eqn:Hd.
    + rewrite (verify_decoded _ _ _ _ Hd).
      destruct (pk_verify _ _ _) eqn:Hv; [eauto|discriminate].
    + destruct signature_b64; [discriminate|..];
        (rewrite (verify_undecodable _ _ _ e); [discriminate|discriminate|exact Hd]).
  - intros (raw & Hd & Hv). now rewrite (verify_decoded _ _ _ _ Hd), Hv.
Qed.

(** What [verify_sealed_covenant] reads from a dictionary. *)
Lemma verify_sealed_covenant_true_iff
    (self : CryptographicSeal.t) (d : gmap pystr pyval) :
  CryptographicSeal.verify_sealed_covenant self (VDict d) = Return true <->
  exists covenant signature message raw,
    d !! lit "covenant" = Some (VStr covenant) /\
    Codec.str_encode covenant = Return message /\
    d !! lit "signature" = Some signature /\
    b64decode signature = Return raw /\
    pk_verify (CryptographicSeal.public_key self) raw message = true.
Proof.
  unfold CryptographicSeal.verify_sealed_covenant, subscript.
  split.
  - destruct (d !! lit "covenant") as [c|]; [|discriminate].
    rewrite bind_Return.
    destruct c as [| | | |covenant| | |]; try discriminate.
    cbn [encode].
    destruct (Codec.str_encode covenant) as [message|] eqn:Hm; [|discriminate].
    rewrite bind_Return.
    destruct (d !! lit "signature") as [signature|]; [|discriminate].
    rewrite bind_Return.
    intros (raw & Hd & Hv)%verify_true_iff.
    exists covenant, signature, message, raw. auto.
  - intros (covenant & signature & message & raw & -> & Hm & -> & Hd & Hv).
    rewrite bind_Return. cbn [encode]. rewrite Hm, !bind_Return.
    apply verify_true_iff. eauto.
Qed.

Lemma key_public_key_covenant : lit "public_key" <> lit "covenant".
Proof. intros Heq. vm_compute in Heq. discriminate Heq. Qed.

Lemma key_public_key_signature : lit "public_key" <> lit "signature".
Proof. intros Heq. vm_compute in Heq. discriminate Heq. Qed.

(** Only the entries [covenant] and [signature] are read. *)
Lemma verify_sealed_covenant_reads
    (self : CryptographicSeal.t) (d d' : gmap pystr pyval) :
  d' !! lit "covenant" = d !! lit "covenant" ->
  d' !! lit "signature" = d !! lit "signature" ->
  CryptographicSeal.verify_sealed_covenant self (VDict d')
  = CryptographicSeal.verify_sealed_covenant self (VDict d).
Proof.
  intros Hc Hs.
  unfold CryptographicSeal.verify_sealed_covenant, subscript.
  now rewrite Hc, Hs.
Qed.
Lemma key_covenant_signature : lit "covenant" <> lit "signature".
Proof. intros Heq. vm_compute in Heq. discriminate Heq. Qed.

Lemma try_except_false_total (body : result bool) :
  exists b, try_except body (fun _ => Return false) = Return b.
Proof. destruct body; cbn; eauto. Qed.

Lemma try_except_false_true (body : result bool) :
  try_except body (fun _ => Return false) = Return true <->
  body = Return true.
Proof. destruct body; cbn; split; congruence. Qed.
End SealFacts.

(** ** The reference backend satisfies the laws *)

Module ReferenceFacts.
Import Reference Base64 Base64Facts.

Lemma bytes_eqb_refl (a : bytes) : bytes_eqb a a = true.
Proof.
  induction a as [|x a IH]; [reflexivity|].
  cbn. rewrite IH. now rewrite (Byte.byte_dec_lb (eq_refl x)).
Qed.

Lemma bytes_eqb_eq (a b : bytes) : bytes_eqb a b = true -> a = b.
Proof.
  revert b. induction a as [|x a IH]; intros [|y b]; cbn; try discriminate.
  - reflexivity.
  - intros [Hxy Hab]%andb_true_iff.
    apply Byte.byte_dec_bl in Hxy. apply IH in Hab. congruence.
Qed.

Lemma tag_length (pk m : bytes) : length (tag pk m) = 64%nat.
Proof.
  unfold tag. rewrite length_take, !length_app, repeat_length. lia.
Qed.

Lemma sign_verify : @sign_verify_law backend.
Proof. intros sk m. cbn. apply bytes_eqb_refl. Qed.

Lemma signature_length : @signature_length_law backend.
Proof.
  intros pk sig m Hv. cbn in Hv. apply bytes_eqb_eq in Hv. subst sig.
  apply tag_length.
Qed.

Lemma load_pem_export (label : string) (key : bytes) :
  load_pem label (pem_header label ++ b64encode key ++ pem_footer label)
  = Return key.
Proof.
  unfold load_pem. cbv zeta.
  rewrite drop_app_length.
  replace (length (pem_header label ++ b64encode key ++ pem_footer label)
           - length (pem_header label) - length (pem_footer label))%nat
    with (length (b64encode key)) by (rewrite !length_app; lia).
  rewrite take_app_length, bytes_eqb_refl, a2b_base64_b64encode.
  reflexivity.
Qed.

Lemma pem_ascii (label : string) (key : bytes) :
  ascii_only (blit label) = true ->
  ascii_only (pem_header label ++ b64encode key ++ pem_footer label) = true.
Proof.
  intros Hl. pose proof (b64encode_ascii key) as Hk.
  unfold ascii_only, pem_header, pem_footer in *.
  rewrite !forallb_app, Hl, Hk. reflexivity.
Qed.

Lemma pem_private : @pem_private_law backend.
Proof.
  intros sk.
  cbn [sk_private_bytes load_pem_private_key backend].
  split; [discriminate|]. split.
  - now apply pem_ascii.
  - apply load_pem_export.
Qed.

Lemma pem_public : @pem_public_law backend.
Proof.
  intros pk.
  cbn [pk_public_bytes load_pem_public_key backend].
  split; [discriminate|]. split.
  - now apply pem_ascii.
  - apply load_pem_export.
Qed.
End ReferenceFacts.

(** * The claims *)

Section Claims.
Context `{B : Ed25519Backend}.

(** C1 (as the code has it).  A signature argument that decodes to a
    structurally valid signature which the primitive rejects for the
    message makes [CryptographicSeal.verify] raise
    [ValueError("Signature verification failed: ...")] around the
    primitive's [InvalidSignature]; the method does not return [False]. *)
Theorem C1_mismatch_raises_ValueError
    (self : CryptographicSeal.t) (message : option bytes)
    (signature_b64 : pyval) (raw : bytes) :
  b64decode signature_b64 = Return raw ->
  length raw = 64%nat ->
  pk_verify (CryptographicSeal.public_key self) raw
    (default CryptographicSeal.COVENANT_MESSAGE message) = false ->
  CryptographicSeal.verify self message signature_b64
  = Raise (ValueError (VerificationFailed InvalidSignature)).
Proof.
  intros Hd _ Hrej. rewrite (verify_decoded _ _ _ _ Hd), Hrej. reflexivity.
Qed.

(** C2.  On a freshly generated key pair, the signature [sign] returns for
    a message verifies for that message on the same instance:
    [verify(m, sign(m))] returns [True] (with [None] standing for the
    default covenant message on both sides). *)
Theorem C2_fresh_sign_then_verify
    (fresh : Ed25519PrivateKey) (message : option bytes) :
  sign_verify_law ->
  exists seal sig,
    CryptographicSeal.__init__ fresh None None = Return seal /\
    CryptographicSeal.sign seal message = Return sig /\
    CryptographicSeal.verify seal message (VStr sig) = Return true.
Proof.
  intros Hlaw. eexists. eexists. split; [reflexivity|].
  split; [apply sign_returns|].
  rewrite (verify_decoded _ _ _ _ (b64decode_signature_text _)).
  cbn [CryptographicSeal.public_key CryptographicSeal.private_key].
  now rewrite Hlaw.
Qed.

(** C3 (as the code has it).  The public key of an instance is the one
    derived from its private key when the instance was generated (at most
    one PEM argument non-empty) and when it was imported from the two PEM
    exports of an instance that has the property. *)
Theorem C3_public_key_derivable (fresh : Ed25519PrivateKey) :
  pem_private_law -> pem_public_law ->
  (forall private_key_pem public_key_pem,
      truthy private_key_pem && truthy public_key_pem = false ->
      exists seal,
        CryptographicSeal.__init__ fresh private_key_pem public_key_pem
        = Return seal /\
        key_pair_consistent seal) /\
  (forall k,
      key_pair_consistent k ->
      exists private_pem public_pem seal,
        CryptographicSeal.get_private_key_pem k = Return private_pem /\
        CryptographicSeal.get_public_key_pem k = Return public_pem /\
        CryptographicSeal.__init__ fresh (Some private_pem) (Some public_pem)
        = Return seal /\
        key_pair_consistent seal).
Proof.
  intros Hpriv Hpub. split.
  - intros a b Hab. unfold CryptographicSeal.__init__. rewrite Hab.
    eexists. split; reflexivity.
  - intros k Hk.
    destruct (init_of_exports fresh k Hpriv Hpub) as (pa & pb & H1 & H2 & H3).
    exists pa, pb, k. auto.
Qed.

(** C4.  Exporting the two PEM strings of a generated key pair and
    constructing a new seal from them gives a key pair that signs every
    message with the same text as the original, and that text verifies on
    both instances. *)
Theorem C4_export_import_round_trip
    (fresh fresh' : Ed25519PrivateKey) (message : option bytes) :
  pem_private_law -> pem_public_law -> sign_verify_law ->
  exists k private_pem public_pem k' sig,
    CryptographicSeal.__init__ fresh None None = Return k /\
    CryptographicSeal.get_private_key_pem k = Return private_pem /\
    CryptographicSeal.get_public_key_pem k = Return public_pem /\
    CryptographicSeal.__init__ fresh' (Some private_pem) (Some public_pem)
    = Return k' /\
    CryptographicSeal.sign k message = Return sig /\
    CryptographicSeal.sign k' message = Return sig /\
    CryptographicSeal.verify k' message (VStr sig) = Return true /\
    CryptographicSeal.verify k message (VStr sig) = Return true.
Proof.
  intros Hpriv Hpub Hlaw.
  set (k := CryptographicSeal.Seal fresh (sk_public_key fresh)).
  destruct (init_of_exports fresh' k Hpriv Hpub) as (pa & pb & H1 & H2 & H3).
  exists k, pa, pb, k. eexists.
  split; [reflexivity|]. do 3 (split; [assumption|]).
  split; [apply sign_returns|]. split; [apply sign_returns|].
  rewrite (verify_decoded _ _ _ _ (b64decode_signature_text _)).
  cbn [k CryptographicSeal.public_key CryptographicSeal.private_key].
  rewrite Hlaw. auto.
Qed.

(** C5 (as the code has it).  Constructing a seal with a public key PEM
    and no private key does not give a public-only key pair: the instance
    holds the freshly generated private key, and [sign] returns the base64
    text of the signature made with it instead of failing. *)
Theorem C5_public_only_still_signs
    (fresh : Ed25519PrivateKey) (public_key_pem : option pystr)
    (message : option bytes) :
  exists seal,
    CryptographicSeal.__init__ fresh None public_key_pem = Return seal /\
    CryptographicSeal.private_key seal = fresh /\
    CryptographicSeal.sign seal message
    = Return (signature_text
                (sk_sign fresh
                   (default CryptographicSeal.COVENANT_MESSAGE message))).
Proof.
  eexists. split; [reflexivity|]. split; [reflexivity|].
  apply sign_returns.
Qed.

(** C6 (as the code has it).  A signature argument that is not
    structurally valid makes [verify] raise: a [ValueError] (of which
    [binascii.Error] is a subclass) whenever the argument is a [str], and,
    when the argument decodes to bytes of the wrong length, the very
    [ValueError("Signature verification failed: ...")] that a
    structurally valid non-matching signature gets. *)
Theorem C6_malformed_signature_raises
    (self : CryptographicSeal.t) (message : option bytes)
    (signature_b64 : pyval) :
  signature_length_law ->
  ~ structurally_valid signature_b64 ->
  exists e,
    CryptographicSeal.verify self message signature_b64 = Raise e /\
    (forall s, signature_b64 = VStr s -> is_ValueError e = true) /\
    (forall raw, b64decode signature_b64 = Return raw ->
                 e = ValueError (VerificationFailed InvalidSignature)).
Proof.
  intros Hlen Hbad.
  destruct (b64decode signature_b64) as [raw|e] eqn:Hd.
  - exists (ValueError (VerificationFailed InvalidSignature)).
    rewrite (verify_decoded _ _ _ _ Hd).
    destruct (pk_verify _ _ _) eqn:Hv.
    + exfalso. apply Hbad. exists raw. split; [exact Hd|].
      now apply Hlen in Hv.
    + auto.
  - destruct signature_b64 as [| | | |s| | |].
    1: { exists (ValueError SignatureRequired). split; [reflexivity|].
         split; [intros s [=]|intros raw [=]]. }
    all: exists e; split;
           [apply verify_undecodable; [discriminate|exact Hd]|];
           split; [|intros raw Hr; discriminate Hr];
           intros s' Hs; try discriminate Hs.
    now apply (b64decode_str_raises s).
Qed.

(** C7 (as the code has it).  When the primitive rejects, under the public
    key of [k2], the signature [k1] makes over a message, [verify] on [k2]
    raises [ValueError("Signature verification failed: ...")]; it does
    not return [False]. *)
Theorem C7_other_key_raises_ValueError
    (k1 k2 : CryptographicSeal.t) (message : option bytes) :
  pk_verify (CryptographicSeal.public_key k2)
    (sk_sign (CryptographicSeal.private_key k1)
       (default CryptographicSeal.COVENANT_MESSAGE message))
    (default CryptographicSeal.COVENANT_MESSAGE message) = false ->
  exists sig,
    CryptographicSeal.sign k1 message = Return sig /\
    CryptographicSeal.verify k2 message (VStr sig)
    = Raise (ValueError (VerificationFailed InvalidSignature)).
Proof.
  intros Hrej. eexists. split; [apply sign_returns|].
  rewrite (verify_decoded _ _ _ _ (b64decode_signature_text _)), Hrej.
  reflexivity.
Qed.

(** C8.  When at most one of the two PEM arguments is a non-empty string
    ([None] and [""] count as empty), the constructor returns without
    raising, loads nothing, and the instance is the freshly generated key
    pair. *)
Theorem C8_init_generates_unless_both_given
    (fresh : Ed25519PrivateKey) (private_key_pem public_key_pem : option pystr) :
  truthy private_key_pem = false \/ truthy public_key_pem = false ->
  CryptographicSeal.__init__ fresh private_key_pem public_key_pem
  = Return (CryptographicSeal.Seal fresh (sk_public_key fresh)).
Proof.
  intros [Ha|Hb]; unfold CryptographicSeal.__init__.
  - now rewrite Ha.
  - rewrite Hb, andb_false_r. reflexivity.
Qed.

(** C9 (as the code has it).  [verify_sealed_covenant] reads the entries
    [covenant] and [signature] of the dictionary and checks the one over
    the other under the public key stored in the receiving instance.  The
    entry [public_key] plays no part: setting or removing it changes
    nothing.  The sealed covenant another key pair creates is refused (with
    a [ValueError]) whenever the primitive rejects its signature under the
    receiver's stored key, although it carries the public key of its
    maker. *)
Theorem C9_sealed_covenant_checked_under_own_key
    (self : CryptographicSeal.t) (d : gmap pystr pyval) :
  (forall v,
      CryptographicSeal.verify_sealed_covenant self
        (VDict (<[lit "public_key" := v]> d))
      = CryptographicSeal.verify_sealed_covenant self (VDict d)) /\
  CryptographicSeal.verify_sealed_covenant self
    (VDict (delete (lit "public_key") d))
  = CryptographicSeal.verify_sealed_covenant self (VDict d) /\
  (CryptographicSeal.verify_sealed_covenant self (VDict d) = Return true <->
   exists covenant signature message raw,
     d !! lit "covenant" = Some (VStr covenant) /\
     Codec.str_encode covenant = Return message /\
     d !! lit "signature" = Some signature /\
     b64decode signature = Return raw /\
     pk_verify (CryptographicSeal.public_key self) raw message = true) /\
  (forall other sealed,
      CryptographicSeal.create_sealed_covenant other = Return sealed ->
      pk_verify (CryptographicSeal.public_key self)
        (sk_sign (CryptographicSeal.private_key other)
           CryptographicSeal.COVENANT_MESSAGE)
        CryptographicSeal.COVENANT_MESSAGE = false ->
      (exists pem,
          CryptographicSeal.get_public_key_pem other = Return pem /\
          subscript sealed (lit "public_key") = Return (VStr pem)) /\
      CryptographicSeal.verify_sealed_covenant self sealed
      = Raise (ValueError (VerificationFailed InvalidSignature))).
Proof.
  split; [|split; [|split]].
  - intros v. apply verify_sealed_covenant_reads;
      apply lookup_insert_ne;
      [apply key_public_key_covenant|apply key_public_key_signature].
  - apply verify_sealed_covenant_reads;
      apply lookup_delete_ne;
      [apply key_public_key_covenant|apply key_public_key_signature].
  - apply verify_sealed_covenant_true_iff.
  - intros other sealed Hmk Hrej.
    unfold CryptographicSeal.create_sealed_covenant in Hmk.
    rewrite sign_returns, bind_Return in Hmk.
    change (Codec.bytes_decode CryptographicSeal.COVENANT_MESSAGE)
      with (Return (lit "CHICKA_CHICKA_ORANGE")) in Hmk.
    rewrite bind_Return in Hmk.
    destruct (CryptographicSeal.get_public_key_pem other) as [pem|];
      [|discriminate Hmk].
    rewrite bind_Return in Hmk. injection Hmk as <-. split.
    + exists pem. split; [reflexivity|]. unfold subscript.
      rewrite lookup_insert_ne by (symmetry; apply key_public_key_covenant).
      rewrite lookup_insert_ne by (symmetry; apply key_public_key_signature).
      rewrite lookup_insert_ne
        by (intros Heq; vm_compute in Heq; discriminate Heq).
      now rewrite lookup_insert_eq.
    + unfold CryptographicSeal.verify_sealed_covenant, subscript.
      rewrite lookup_insert_eq, bind_Return.
      change (encode (VStr (lit "CHICKA_CHICKA_ORANGE")))
        with (Return CryptographicSeal.COVENANT_MESSAGE).
      rewrite bind_Return.
      rewrite lookup_insert_ne by apply key_covenant_signature.
      rewrite lookup_insert_eq, bind_Return.
      rewrite (verify_decoded _ _ _ _ (b64decode_signature_text _)).
      cbn [from_option id]. rewrite Hrej. reflexivity.
Qed.

(** C10.  [HierarchicalSeal.verify_complete_seal] returns a boolean for
    every argument and never raises.  It returns [True] exactly when the
    entries [covenant], [integrity], [integrity.full_signature] and
    [integrity.public_key] are all present, the covenant is a string that
    can be encoded, and the signature decodes and verifies over the
    encoded covenant under the key of the instance; it returns [False] in
    every other case. *)
Theorem C10_verify_complete_seal_total
    (self : HierarchicalSeal.t) (sealed_object : pyval) :
  let verified :=
    exists covenant integrity signature bundled message raw,
      subscript sealed_object (lit "covenant") = Return (VStr covenant) /\
      subscript sealed_object (lit "integrity") = Return integrity /\
      subscript integrity (lit "full_signature") = Return signature /\
      subscript integrity (lit "public_key") = Return bundled /\
      Codec.str_encode covenant = Return message /\
      b64decode signature = Return raw /\
      pk_verify
        (CryptographicSeal.public_key (HierarchicalSeal.crypto_seal self))
        raw message = true in
  (exists b, HierarchicalSeal.verify_complete_seal self sealed_object
             = Return b) /\
  (HierarchicalSeal.verify_complete_seal self sealed_object = Return true
   <-> verified) /\
  (HierarchicalSeal.verify_complete_seal self sealed_object = Return false
   <-> ~ verified).
Proof.
  intros verified.
  assert (HierarchicalSeal.verify_complete_seal self sealed_object
          = Return true <-> verified) as Hiff.
  { unfold HierarchicalSeal.verify_complete_seal.
    rewrite try_except_false_true. unfold verified. split.
    - destruct (subscript sealed_object (lit "covenant")) as [c|];
        [|discriminate].
      rewrite bind_Return.
      destruct (subscript sealed_object (lit "integrity")) as [i|];
        [|discriminate].
      rewrite !bind_Return.
      destruct (subscript i (lit "full_signature")) as [fs|] eqn:Hfs;
        [|discriminate].
      rewrite !bind_Return.
      destruct (subscript i (lit "public_key")) as [pk|] eqn:Hpk;
        [|discriminate].
      rewrite bind_Return. cbv zeta.
      intros (cov & sg & m & raw & Hc & Hm & Hs & Hd & Hv)%verify_sealed_covenant_true_iff.
      rewrite lookup_insert_eq in Hc.
      rewrite lookup_insert_ne in Hs by apply key_covenant_signature.
      rewrite lookup_insert_eq in Hs.
      injection Hc as ->. injection Hs as ->.
      exists cov, i, sg, pk, m, raw. repeat split; auto.
    - intros (cov & i & sg & pk & m & raw & -> & -> & Hs & Hp & Hm & Hd & Hv).
      rewrite !bind_Return, Hs, !bind_Return, Hp, bind_Return. cbv zeta.
      apply verify_sealed_covenant_true_iff.
      exists cov, sg, m, raw.
      rewrite lookup_insert_eq.
      rewrite lookup_insert_ne by apply key_covenant_signature.
      rewrite lookup_insert_eq. auto. }
  destruct (try_except_false_total
              (covenant ← subscript sealed_object (lit "covenant");
               integrity ← subscript sealed_object (lit "integrity");
               full_signature ← subscript integrity (lit "full_signature");
               integrity' ← subscript sealed_object (lit "integrity");
               public_key ← subscript integrity' (lit "public_key");
               CryptographicSeal.verify_sealed_covenant
                 (HierarchicalSeal.crypto_seal self)
                 (VDict (<[lit "covenant" := covenant]>
                        (<[lit "signature" := full_signature]>
                        (<[lit "public_key" := public_key]> ∅))))))
    as [b Hb].
  change (HierarchicalSeal.verify_complete_seal self sealed_object = Return b)
    in Hb.
  split; [eauto|]. split; [exact Hiff|].
  rewrite <- Hiff, Hb. destruct b; split; congruence.
Qed.

End Claims.

(** * Runs on the reference backend *)

Module Runs.
Import Reference.

(** Evaluate both sides of each conjunct. *)
Ltac run :=
  repeat match goal with |- _ /\ _ => split end;
  lazymatch goal with
  | |- @eq (result CryptographicSeal.t) _ _ => reflexivity
  | |- @eq (result HierarchicalSeal.t) _ _ => reflexivity
  | |- _ => vm_compute; first [reflexivity | discriminate]
  end.

(** C1, on the code: the signature of [b"CHICKA_CHICKA_ORANGE"] verifies,
    and checked against [b"ALTERED_MESSAGE"] it is a structurally valid
    signature that does not match; [verify] raises instead of returning
    [False]. *)
Lemma C1_altered_message_raises :
  exists seal sig raw,
    CryptographicSeal.__init__ key_a None None = Return seal /\
    CryptographicSeal.sign seal (Some CryptographicSeal.COVENANT_MESSAGE)
    = Return sig /\
    b64decode (VStr sig) = Return raw /\
    length raw = 64%nat /\
    pk_verify (CryptographicSeal.public_key seal) raw ALTERED_MESSAGE
    = false /\
    CryptographicSeal.verify seal
      (Some CryptographicSeal.COVENANT_MESSAGE) (VStr sig) = Return true /\
    CryptographicSeal.verify seal (Some ALTERED_MESSAGE) (VStr sig)
    = Raise (ValueError (VerificationFailed InvalidSignature)) /\
    CryptographicSeal.verify seal (Some ALTERED_MESSAGE) (VStr sig)
    <> Return false.
Proof.
  exists seal_a,
    (signature_text (tag (rev key_a) CryptographicSeal.COVENANT_MESSAGE)),
    (tag (rev key_a) CryptographicSeal.COVENANT_MESSAGE).
  run.
Qed.

Lemma C1_witness :
  CryptographicSeal.verify seal_a (Some ALTERED_MESSAGE)
    (VStr (signature_text
             (tag (rev key_a) CryptographicSeal.COVENANT_MESSAGE)))
  = Raise (ValueError (VerificationFailed InvalidSignature)).
Proof.
  apply (@C1_mismatch_raises_ValueError backend seal_a
           (Some ALTERED_MESSAGE) _
           (tag (rev key_a) CryptographicSeal.COVENANT_MESSAGE));
    vm_compute; reflexivity.
Defined.

Lemma C2_witness :
  exists seal sig,
    CryptographicSeal.__init__ key_a None None = Return seal /\
    CryptographicSeal.sign seal (Some ALTERED_MESSAGE) = Return sig /\
    CryptographicSeal.verify seal (Some ALTERED_MESSAGE) (VStr sig)
    = Return true.
Proof.
  exact (@C2_fresh_sign_then_verify backend key_a (Some ALTERED_MESSAGE)
           ReferenceFacts.sign_verify).
Defined.

(** C3, on the code: the private PEM of one key pair and the public PEM of
    another are loaded side by side without a check, and the instance's
    public key is not the one of its private key. *)
Lemma C3_mixed_import_inconsistent :
  exists private_pem public_pem seal,
    CryptographicSeal.get_private_key_pem seal_a = Return private_pem /\
    CryptographicSeal.get_public_key_pem seal_b = Return public_pem /\
    CryptographicSeal.__init__ key_a (Some private_pem) (Some public_pem)
    = Return seal /\
    ~ key_pair_consistent seal.
Proof.
  exists (Codec.code_points (@sk_private_bytes backend key_a)),
    (Codec.code_points (@pk_public_bytes backend (rev key_b))),
    (@CryptographicSeal.Seal backend key_a (rev key_b)).
  unfold key_pair_consistent. run.
Qed.

Lemma C3_witness :
  exists private_pem public_pem seal,
    CryptographicSeal.get_private_key_pem seal_a = Return private_pem /\
    CryptographicSeal.get_public_key_pem seal_a = Return public_pem /\
    CryptographicSeal.__init__ key_b (Some private_pem) (Some public_pem)
    = Return seal /\
    key_pair_consistent seal.
Proof.
  exact (proj2 (@C3_public_key_derivable backend key_b
                  ReferenceFacts.pem_private ReferenceFacts.pem_public)
           seal_a eq_refl).
Defined.

Lemma C4_witness :
  exists k private_pem public_pem k' sig,
    CryptographicSeal.__init__ key_a None None = Return k /\
    CryptographicSeal.get_private_key_pem k = Return private_pem /\
    CryptographicSeal.get_public_key_pem k = Return public_pem /\
    CryptographicSeal.__init__ key_b (Some private_pem) (Some public_pem)
    = Return k' /\
    CryptographicSeal.sign k None = Return sig /\
    CryptographicSeal.sign k' None = Return sig /\
    CryptographicSeal.verify k' None (VStr sig) = Return true /\
    CryptographicSeal.verify k None (VStr sig) = Return true.
Proof.
  exact (@C4_export_import_round_trip backend key_a key_b None
           ReferenceFacts.pem_private ReferenceFacts.pem_public
           ReferenceFacts.sign_verify).
Defined.

(** C5, on the code: a seal built from a public key PEM alone signs. *)
Lemma C5_public_only_signs :
  exists public_pem seal sig,
    CryptographicSeal.get_public_key_pem seal_a = Return public_pem /\
    CryptographicSeal.__init__ key_b None (Some public_pem) = Return seal /\
    CryptographicSeal.private_key seal = key_b /\
    CryptographicSeal.sign seal (Some CryptographicSeal.COVENANT_MESSAGE)
    = Return sig.
Proof.
  exists (Codec.code_points (@pk_public_bytes backend (rev key_a))), seal_b,
    (signature_text (tag (rev key_b) CryptographicSeal.COVENANT_MESSAGE)).
  run.
Qed.

(** C6, on the code: a malformed signature (three bytes) and a
    structurally valid signature that does not match raise the same
    exception. *)
Lemma C6_malformed_same_error_as_mismatch :
  exists good,
    CryptographicSeal.sign seal_a (Some CryptographicSeal.COVENANT_MESSAGE)
    = Return good /\
    structurally_valid (VStr good) /\
    ~ structurally_valid (VStr (lit "AAAA")) /\
    CryptographicSeal.verify seal_a (Some ALTERED_MESSAGE) (VStr good)
    = Raise (ValueError (VerificationFailed InvalidSignature)) /\
    CryptographicSeal.verify seal_a (Some ALTERED_MESSAGE)
      (VStr (lit "AAAA"))
    = Raise (ValueError (VerificationFailed InvalidSignature)).
Proof.
  exists (signature_text (tag (rev key_a) CryptographicSeal.COVENANT_MESSAGE)).
  split; [vm_compute; reflexivity|].
  split; [exists (tag (rev key_a) CryptographicSeal.COVENANT_MESSAGE);
          split; vm_compute; reflexivity|].
  split; [|split; vm_compute; reflexivity].
  intros (raw & Hd & Hl). vm_compute in Hd. injection Hd as <-.
  discriminate Hl.
Qed.

Lemma C6_witness :
  exists e,
    CryptographicSeal.verify seal_a None (VStr (lit "AAAA")) = Raise e /\
    (forall s, VStr (lit "AAAA") = VStr s -> is_ValueError e = true) /\
    (forall raw, b64decode (VStr (lit "AAAA")) = Return raw ->
                 e = ValueError (VerificationFailed InvalidSignature)).
Proof.
  apply (@C6_malformed_signature_raises backend seal_a None
           (VStr (lit "AAAA")) ReferenceFacts.signature_length).
  intros (raw & Hd & Hl). vm_compute in Hd. injection Hd as <-.
  discriminate Hl.
Defined.

(** C7, on the code: the signature one key pair makes, checked on another
    key pair, makes [verify] raise; it does not return [False]. *)
Lemma C7_other_key_pair_raises :
  exists k1 k2 sig,
    CryptographicSeal.__init__ key_a None None = Return k1 /\
    CryptographicSeal.__init__ key_b None None = Return k2 /\
    CryptographicSeal.sign k1 (Some ALTERED_MESSAGE) = Return sig /\
    CryptographicSeal.public_key k1 <> CryptographicSeal.public_key k2 /\
    CryptographicSeal.verify k2 (Some ALTERED_MESSAGE) (VStr sig)
    = Raise (ValueError (VerificationFailed InvalidSignature)) /\
    CryptographicSeal.verify k2 (Some ALTERED_MESSAGE) (VStr sig)
    <> Return false.
Proof.
  exists seal_a, seal_b, (signature_text (tag (rev key_a) ALTERED_MESSAGE)).
  run.
Qed.

Lemma C7_witness :
  exists sig,
    CryptographicSeal.sign seal_a None = Return sig /\
    CryptographicSeal.verify seal_b None (VStr sig)
    = Raise (ValueError (VerificationFailed InvalidSignature)).
Proof.
  apply (@C7_other_key_raises_ValueError backend seal_a seal_b None).
  vm_compute. reflexivity.
Defined.

Lemma C8_witness :
  CryptographicSeal.__init__ key_a None (Some (lit "-----BEGIN PUBLIC KEY-----"))
  = Return seal_a.
Proof.
  apply (@C8_init_generates_unless_both_given backend key_a None
           (Some (lit "-----BEGIN PUBLIC KEY-----"))).
  left. reflexivity.
Defined.

Lemma C9_witness :
  exists sealed,
    CryptographicSeal.create_sealed_covenant seal_a = Return sealed /\
    CryptographicSeal.verify_sealed_covenant seal_a sealed = Return true /\
    CryptographicSeal.verify_sealed_covenant seal_b sealed
    = Raise (ValueError (VerificationFailed InvalidSignature)).
Proof.
  destruct (CryptographicSeal.create_sealed_covenant seal_a)
    as [sealed|e] eqn:Hmk; [|vm_compute in Hmk; discriminate Hmk].
  exists sealed. split; [reflexivity|]. split.
  - vm_compute in Hmk. injection Hmk as <-. vm_compute. reflexivity.
  - apply (proj2 (proj2 (proj2
             (@C9_sealed_covenant_checked_under_own_key backend seal_b ∅)))
             seal_a sealed Hmk).
    vm_compute. reflexivity.
Defined.

(** C9, on the code: a receiver imported from the private PEM of one key
    pair and the public PEM of another is a key pair different from the
    second, and yet accepts the sealed covenant the second creates: the
    check runs under the receiver's stored public key. *)
Lemma C9_other_key_pair_accepted :
  exists private_pem public_pem receiver sealed,
    CryptographicSeal.get_private_key_pem seal_b = Return private_pem /\
    CryptographicSeal.get_public_key_pem seal_a = Return public_pem /\
    CryptographicSeal.__init__ key_b (Some private_pem) (Some public_pem)
    = Return receiver /\
    CryptographicSeal.private_key receiver
    <> CryptographicSeal.private_key seal_a /\
    receiver <> seal_a /\
    CryptographicSeal.create_sealed_covenant seal_a = Return sealed /\
    CryptographicSeal.verify_sealed_covenant receiver sealed = Return true.
Proof.
  exists (Codec.code_points (@sk_private_bytes backend key_b)),
    (Codec.code_points (@pk_public_bytes backend (rev key_a))),
    (@CryptographicSeal.Seal backend key_b (rev key_a)).
  destruct (CryptographicSeal.create_sealed_covenant seal_a)
    as [sealed|e] eqn:Hmk; [|vm_compute in Hmk; discriminate Hmk].
  exists sealed.
  split; [vm_compute; reflexivity|]. split; [vm_compute; reflexivity|].
  split; [reflexivity|]. split; [vm_compute; discriminate|].
  split; [intros Heq; apply (f_equal CryptographicSeal.private_key) in Heq;
          vm_compute in Heq; discriminate Heq|].
  split; [reflexivity|].
  vm_compute in Hmk. injection Hmk as <-. vm_compute. reflexivity.
Qed.

(** The scenario of the demonstration: a complete seal carrying the
    instance's own signature is accepted; with the covenant altered, or
    with entries missing, the answer is [False]. *)
Lemma verify_complete_seal_scenario :
  exists hs sig pem,
    HierarchicalSeal.__init__ key_a = Return hs /\
    CryptographicSeal.sign (HierarchicalSeal.crypto_seal hs) None
    = Return sig /\
    CryptographicSeal.get_public_key_pem (HierarchicalSeal.crypto_seal hs)
    = Return pem /\
    let integrity :=
      VDict (<[lit "full_signature" := VStr sig]>
            (<[lit "public_key" := VStr pem]> ∅)) in
    HierarchicalSeal.verify_complete_seal hs
      (VDict (<[lit "covenant" := VStr (lit "CHICKA_CHICKA_ORANGE")]>
             (<[lit "integrity" := integrity]> ∅)))
    = Return true /\
    HierarchicalSeal.verify_complete_seal hs
      (VDict (<[lit "covenant" := VStr (lit "ALTERED_MESSAGE")]>
             (<[lit "integrity" := integrity]> ∅)))
    = Return false /\
    HierarchicalSeal.verify_complete_seal hs
      (VDict (<[lit "integrity" := integrity]> ∅))
    = Return false /\
    HierarchicalSeal.verify_complete_seal hs
      (VDict (<[lit "covenant" := VStr (lit "CHICKA_CHICKA_ORANGE")]>
             (<[lit "integrity" := VDict (<[lit "full_signature" := VStr (lit "AAAA")]>
                                         (<[lit "public_key" := VStr pem]> ∅))]> ∅)))
    = Return false.
Proof.
  exists (HierarchicalSeal.Seal seal_a
            [8706; 8711; 916; 8211; 77; 77; 8211; 916; 32; 8226; 32; 56;
             8734; 83; 83; 772; 9651; 9651]
            (lit "CHICKA_CHICKA_ORANGE")),
    (signature_text (tag (rev key_a) CryptographicSeal.COVENANT_MESSAGE)),
    (Codec.code_points (@pk_public_bytes backend (rev key_a))).
  cbv zeta. run.
Qed.
End Runs.

(** * Further properties of the module *)

(** ** The decoder skips what is not significant, and stops at the padding *)

Module LenientFacts.
Import Base64 Base64Facts.

Lemma a2b_loop_filter data quad_pos leftchar pads bin_data :
  a2b_loop data quad_pos leftchar pads bin_data
  = a2b_loop (List.filter significant data) quad_pos leftchar pads bin_data.
Proof.
  revert quad_pos leftchar pads bin_data.
  induction data as [|ch data IH]; intros quad_pos leftchar pads bin_data;
    [reflexivity|].
  cbn [List.filter]. unfold significant at 1.
  destruct (Byte.eqb ch BASE64_PAD) eqn:Hpad; cbn [orb].
  - cbn [a2b_loop]. rewrite Hpad.
    repeat case_match; try reflexivity; apply IH.
  - destruct (table_a2b_base64 ch <? 64) eqn:Hv.
    + cbn [a2b_loop]. rewrite Hpad.
      destruct (64 <=? table_a2b_base64 ch) eqn:Hge;
        [apply N.ltb_lt in Hv; apply N.leb_le in Hge; lia|].
      repeat case_match; apply IH.
    + cbn [a2b_loop]. rewrite Hpad.
      destruct (64 <=? table_a2b_base64 ch) eqn:Hge;
        [apply IH|apply N.ltb_ge in Hv; apply N.leb_gt in Hge; lia].
Qed.

Lemma a2b_loop_enc1_then (a : byte) junk leftchar pads bin_data :
  a2b_loop (enc1 a ++ junk) 0 leftchar pads bin_data
  = Return (rev (a :: bin_data)).
Proof.
  pose proof (groups a a) as Ha. split_groups Ha.
  unfold enc1. cbn [app].
  rewrite !a2b_loop_alphabet by assumption. cbn [N.eqb Pos.eqb].
  cbn [a2b_loop]. change (Byte.eqb BASE64_PAD BASE64_PAD) with true.
  cbn [N.leb N.compare Pos.compare Pos.compare_cont N.add Pos.add Pos.succ].
  match goal with G : N.lor _ (N.shiftr (N.shiftl _ 4) 4) = _ |- _ =>
    rewrite G end.
  now rewrite u8_to_N.
Qed.

Lemma a2b_loop_enc2_then (a b : byte) junk leftchar pads bin_data :
  a2b_loop (enc2 a b ++ junk) 0 leftchar pads bin_data
  = Return (rev (b :: a :: bin_data)).
Proof.
  pose proof (groups a b) as Hab. pose proof (groups b b) as Hb.
  split_groups Hab. split_groups Hb.
  unfold enc2. cbn [app].
  rewrite !a2b_loop_alphabet by assumption. cbn [N.eqb Pos.eqb].
  cbn [a2b_loop]. change (Byte.eqb BASE64_PAD BASE64_PAD) with true.
  cbn [N.leb N.compare Pos.compare Pos.compare_cont N.add Pos.add Pos.succ].
  match goal with G : N.land _ 0xf = N.shiftr (Byte.to_N b) 4 |- _ =>
    rewrite G end.
  match goal with G : N.shiftr (N.shiftl _ 2) 2 = _ |- _ => rewrite G end.
  match goal with G : N.lor (N.shiftl (N.shiftr _ 4) 4) _ = _ |- _ =>
    rewrite G end.
  match goal with G : N.lor _ (N.shiftr (N.lor _ _) 4) = Byte.to_N a |- _ =>
    rewrite G end.
  now rewrite !u8_to_N.
Qed.

Lemma a2b_loop_padded_then (s junk bin_data : bytes) :
  (length s mod 3 <> 0)%nat ->
  a2b_loop (b64encode s ++ junk) 0 0 0 bin_data = Return (rev bin_data ++ s).
Proof.
  revert bin_data. induction s as [|a|a b|a b c s IH] using list_ind3;
    intros bin_data Hlen.
  - now cbn in Hlen.
  - change (b64encode [a]) with (enc1 a). now rewrite a2b_loop_enc1_then.
  - change (b64encode [a; b]) with (enc2 a b). rewrite a2b_loop_enc2_then.
    cbn [rev]. now rewrite <- !app_assoc.
  - change (b64encode (a :: b :: c :: s)) with (enc3 a b c ++ b64encode s).
    rewrite <- app_assoc, a2b_loop_enc3, IH.
    + cbn [rev]. now rewrite <- !app_assoc.
    + intros Hs. apply Hlen. cbn [length].
      change (S (S (S (length s)))) with (3 + length s)%nat.
      rewrite Nat.Div0.add_mod, Hs. reflexivity.
Qed.

(** The length of the base64 text. *)
Lemma b64encode_length (s : bytes) :
  length (b64encode s) = (4 * ((length s + 2) / 3))%nat.
Proof.
  induction s as [|a|a b|a b c s IH] using list_ind3; try reflexivity.
  change (b64encode (a :: b :: c :: s)) with (enc3 a b c ++ b64encode s).
  rewrite length_app, IH. cbn [length enc3].
  replace (S (S (S (length s))) + 2)%nat with (length s + 2 + 1 * 3)%nat by lia.
  rewrite Nat.div_add by lia. lia.
Qed.

Lemma ascii_encode_ascii (s : pystr) :
  ascii_str s = true -> Codec.ascii_encode s = Return (map u8 s).
Proof.
  induction s as [|c s IH]; [reflexivity|].
  unfold ascii_str. cbn [forallb Codec.ascii_encode map].
  intros [Hc Hs]%andb_true_iff. rewrite Hc.
  unfold ascii_str in IH. now rewrite (IH Hs).
Qed.

Lemma ascii_encode_non_ascii (s : pystr) :
  ascii_str s = false -> Codec.ascii_encode s = Raise UnicodeEncodeError.
Proof.
  induction s as [|c s IH]; [discriminate|].
  unfold ascii_str. cbn [forallb Codec.ascii_encode].
  destruct (c <? 0x80); [|reflexivity].
  cbn [andb]. intros Hs. unfold ascii_str in IH. now rewrite (IH Hs).
Qed.

Lemma code_points_ascii (bs : bytes) :
  ascii_only bs = true -> ascii_str (Codec.code_points bs) = true.
Proof.
  unfold ascii_only, ascii_str, Codec.code_points.
  induction bs as [|b bs IH]; [reflexivity|].
  cbn [map forallb]. intros [Hb Hbs]%andb_true_iff.
  now rewrite Hb, IH.
Qed.

Lemma map_u8_code_points (bs : bytes) : map u8 (Codec.code_points bs) = bs.
Proof.
  unfold Codec.code_points. rewrite map_map.
  induction bs as [|b bs IH]; [reflexivity|].
  cbn [map]. now rewrite u8_to_N, IH.
Qed.

Lemma filter_map_u8 (s : pystr) :
  List.filter significant (map u8 s) = map u8 (significant_chars s).
Proof.
  unfold significant_chars.
  induction s as [|c s IH]; [reflexivity|].
  cbn [map List.filter]. destruct (significant (u8 c)); cbn [map];
    now rewrite IH.
Qed.
End LenientFacts.

(** ** [sign] and [verify] *)

Section SignVerify.
Context `{B : Ed25519Backend}.
Import LenientFacts.

Lemma verify_str_congr self message (s s' : pystr) :
  b64decode (VStr s) = b64decode (VStr s') ->
  CryptographicSeal.verify self message (VStr s)
  = CryptographicSeal.verify self message (VStr s').
Proof.
  intros Heq. unfold CryptographicSeal.verify. cbv zeta. now rewrite Heq.
Qed.

Lemma b64decode_ascii_str (s : pystr) :
  ascii_str s = true -> b64decode (VStr s) = Base64.a2b_base64 (map u8 s).
Proof.
  intros Hs. unfold b64decode. now rewrite (ascii_encode_ascii s Hs).
Qed.

Lemma b64decode_raises_kind (signature_b64 : pyval) (e : exn) :
  b64decode signature_b64 = Raise e ->
  e = TypeError \/ e = ValueError NonAsciiArgument \/
  exists why, e = BinasciiError why.
Proof.
  destruct signature_b64 as [| | | |s|data| |]; cbn [b64decode];
    try (intros [= <-]; now left).
  - destruct (Codec.ascii_encode s) as [data|e'] eqn:E; cbn.
    + intros [why ->]%a2b_loop_raises. eauto.
    + intros [= <-]. auto.
  - intros [why ->]%a2b_loop_raises. eauto.
Qed.

(** X1.  On a generated instance (the constructor called with at most one
    non-empty PEM argument) [sign] does not raise.  What it returns is the
    base64 text of the primitive's signature over the message (the covenant
    message when none is given): ASCII, four characters for every three
    bytes started, and decoding it gives the signature back. *)
Theorem generated_sign_returns_base64_of_signature
    (fresh : Ed25519PrivateKey) (private_key_pem public_key_pem : option pystr)
    (message : option bytes) :
  truthy private_key_pem && truthy public_key_pem = false ->
  let raw := sk_sign fresh
               (default CryptographicSeal.COVENANT_MESSAGE message) in
  exists seal sig,
    CryptographicSeal.__init__ fresh private_key_pem public_key_pem
    = Return seal /\
    CryptographicSeal.sign seal message = Return sig /\
    ascii_str sig = true /\
    length sig = (4 * ((length raw + 2) / 3))%nat /\
    b64decode (VStr sig) = Return raw.
Proof.
  intros Hgen raw.
  exists (CryptographicSeal.Seal fresh (sk_public_key fresh)),
    (signature_text raw).
  split; [unfold CryptographicSeal.__init__; now rewrite Hgen|].
  split; [apply sign_returns|].
  split; [apply code_points_ascii, Base64Facts.b64encode_ascii|].
  split; [|apply b64decode_signature_text].
  unfold signature_text, Codec.code_points.
  rewrite length_map. apply b64encode_length.
Qed.

(** X2.  An instance imported from the private PEM of one generated key
    pair and the public PEM of another signs with the first key and
    verifies with the second.  Signing a message and verifying the text on
    that instance returns [True] when the primitive accepts the first
    pair's signature under the second pair's public key, and raises the
    [ValueError] of a failed verification otherwise; the text encoding in
    between plays no part. *)
Theorem mixed_import_sign_then_verify_outcome
    (fresh1 fresh2 fresh : Ed25519PrivateKey) (message : option bytes) :
  pem_private_law -> pem_public_law ->
  let m := default CryptographicSeal.COVENANT_MESSAGE message in
  exists k1 k2 private_pem public_pem seal sig,
    CryptographicSeal.__init__ fresh1 None None = Return k1 /\
    CryptographicSeal.__init__ fresh2 None None = Return k2 /\
    CryptographicSeal.get_private_key_pem k1 = Return private_pem /\
    CryptographicSeal.get_public_key_pem k2 = Return public_pem /\
    CryptographicSeal.__init__ fresh (Some private_pem) (Some public_pem)
    = Return seal /\
    CryptographicSeal.sign seal message = Return sig /\
    CryptographicSeal.verify seal message (VStr sig)
    = if pk_verify (sk_public_key fresh2) (sk_sign fresh1 m) m
      then Return true
      else Raise (ValueError (VerificationFailed InvalidSignature)).
Proof.
  intros Hpriv Hpub m.
  destruct (init_of_exports fresh
              (CryptographicSeal.Seal fresh1 (sk_public_key fresh2))
              Hpriv Hpub) as (pa & pb & H1 & H2 & H3).
  exists (CryptographicSeal.Seal fresh1 (sk_public_key fresh1)),
    (CryptographicSeal.Seal fresh2 (sk_public_key fresh2)),
    pa, pb, (CryptographicSeal.Seal fresh1 (sk_public_key fresh2)).
  eexists.
  split; [reflexivity|]. split; [reflexivity|].
  split; [exact H1|]. split; [exact H2|]. split; [exact H3|].
  split; [apply sign_returns|].
  now rewrite (verify_decoded _ _ _ _ (b64decode_signature_text _)).
Qed.

(** X3.  [verify] never returns [False]: for every message and every
    signature argument it either returns [True] or raises. *)
Theorem verify_returns_true_or_raises
    (self : CryptographicSeal.t) (message : option bytes)
    (signature_b64 : pyval) :
  CryptographicSeal.verify self message signature_b64 = Return true \/
  exists e, CryptographicSeal.verify self message signature_b64 = Raise e.
Proof.
  pose proof (verify_not_false self message signature_b64) as Hnf.
  destruct (CryptographicSeal.verify self message signature_b64) as [[|]|e];
    [now left|congruence|eauto].
Qed.

(** X4.  [verify] returns [True] exactly when the signature argument decodes
    from base64 and the primitive accepts the decoded bytes for the message
    (the covenant message when none is given) under the public key of the
    instance. *)
Theorem verify_returns_true_iff
    (self : CryptographicSeal.t) (message : option bytes)
    (signature_b64 : pyval) :
  CryptographicSeal.verify self message signature_b64 = Return true <->
  exists raw,
    b64decode signature_b64 = Return raw /\
    pk_verify (CryptographicSeal.public_key self) raw
      (default CryptographicSeal.COVENANT_MESSAGE message) = true.
Proof. apply verify_true_iff. Qed.

(** X5.  The exceptions of [verify].  A missing signature gives
    [ValueError("Signature required for verification")]; a signature that
    cannot be decoded gives the decoder's own error, unwrapped ([TypeError],
    the [ValueError] for non-ASCII text, or [binascii.Error]); a decoded
    signature the primitive rejects gives
    [ValueError("Signature verification failed: ...")].  Nothing else is
    raised; the primitive's [InvalidSignature] never escapes. *)
Theorem verify_exceptions
    (self : CryptographicSeal.t) (message : option bytes)
    (signature_b64 : pyval) (e : exn) :
  CryptographicSeal.verify self message signature_b64 = Raise e ->
  (signature_b64 = VNone /\ e = ValueError SignatureRequired) \/
  (signature_b64 <> VNone /\ b64decode signature_b64 = Raise e /\
   (e = TypeError \/ e = ValueError NonAsciiArgument \/
    exists why, e = BinasciiError why)) \/
  (exists raw,
      b64decode signature_b64 = Return raw /\
      pk_verify (CryptographicSeal.public_key self) raw
        (default CryptographicSeal.COVENANT_MESSAGE message) = false /\
      e = ValueError (VerificationFailed InvalidSignature)).
Proof.
  intros Hv.
  destruct (b64decode signature_b64) as [raw|e'] eqn:Hd.
  - right. right. exists raw. split; [reflexivity|].
    rewrite (verify_decoded _ _ _ _ Hd) in Hv.
    destruct (pk_verify _ _ _); [discriminate|].
    injection Hv as <-. auto.
  - destruct signature_b64 as [| | | |s|data| |].
    1: { left. cbn in Hv. injection Hv as <-. auto. }
    all: right; left; split; [discriminate|];
      rewrite (verify_undecodable _ _ _ e') in Hv by (discriminate || exact Hd);
      injection Hv as <-; split; [reflexivity|];
      now apply b64decode_raises_kind in Hd.
Qed.

(** X6.  The signature text is read leniently: characters outside the
    base64 alphabet (spaces, line breaks, punctuation) are skipped.  Two
    ASCII texts with the same significant characters get the same answer
    from [verify]. *)
Theorem verify_skips_insignificant_characters
    (self : CryptographicSeal.t) (message : option bytes) (s s' : pystr) :
  ascii_str s = true -> ascii_str s' = true ->
  significant_chars s = significant_chars s' ->
  CryptographicSeal.verify self message (VStr s)
  = CryptographicSeal.verify self message (VStr s').
Proof.
  intros Hs Hs' Heq. apply verify_str_congr.
  rewrite !b64decode_ascii_str by assumption.
  unfold Base64.a2b_base64.
  rewrite (a2b_loop_filter (map u8 s)), (a2b_loop_filter (map u8 s')).
  now rewrite !filter_map_u8, Heq.
Qed.

(** X7.  The decoder stops at the padding.  When the length of a raw
    signature is not a multiple of three (as for the 64 bytes of Ed25519),
    its text ends in padding, and any ASCII text appended to it is ignored:
    [verify] answers as for the text alone. *)
Theorem verify_ignores_text_after_padding
    (self : CryptographicSeal.t) (message : option bytes)
    (raw : bytes) (junk : pystr) :
  (length raw mod 3 <> 0)%nat ->
  ascii_str junk = true ->
  b64decode (VStr (signature_text raw ++ junk)) = Return raw /\
  CryptographicSeal.verify self message (VStr (signature_text raw ++ junk))
  = CryptographicSeal.verify self message (VStr (signature_text raw)).
Proof.
  intros Hlen Hjunk.
  assert (b64decode (VStr (signature_text raw ++ junk)) = Return raw) as Hd.
  { rewrite b64decode_ascii_str.
    - rewrite map_app. unfold signature_text. rewrite map_u8_code_points.
      unfold Base64.a2b_base64. now rewrite a2b_loop_padded_then.
    - unfold ascii_str in *. rewrite forallb_app, Hjunk, andb_true_r.
      apply code_points_ascii, Base64Facts.b64encode_ascii. }
  split; [exact Hd|].
  apply verify_str_congr. now rewrite Hd, b64decode_signature_text.
Qed.
End SignVerify.

(** ** Construction from PEM, sealed covenants and complete seals *)

Ltac lit_ne :=
  let H := fresh in intros H; vm_compute in H; discriminate H.

Ltac lookups :=
  repeat first [rewrite lookup_insert_eq | rewrite lookup_insert_ne by lit_ne].

Section Seals.
Context `{B : Ed25519Backend}.
Import LenientFacts CodecFacts.

Lemma bind_Raise {A C} (e : exn) (f : A -> result C) :
  (Raise e ≫= f) = Raise e.
Proof. reflexivity. Qed.

(** The dictionary [create_sealed_covenant] builds. *)
Lemma create_sealed_covenant_returns (self : CryptographicSeal.t) :
  pem_public_law ->
  CryptographicSeal.create_sealed_covenant self
  = Return
      (VDict
         (<[lit "covenant" := VStr (lit "CHICKA_CHICKA_ORANGE")]>
         (<[lit "signature" :=
              VStr (signature_text
                      (sk_sign (CryptographicSeal.private_key self)
                         CryptographicSeal.COVENANT_MESSAGE))]>
         (<[lit "algorithm" := VStr (lit "Ed25519")]>
         (<[lit "public_key" :=
              VStr (Codec.code_points
                      (pk_public_bytes (CryptographicSeal.public_key self)))]>
         (<[lit "verified" := VBool true]> ∅)))))).
Proof.
  intros Hpub. destruct (Hpub (CryptographicSeal.public_key self)) as (_ & Ha & _).
  unfold CryptographicSeal.create_sealed_covenant.
  rewrite sign_returns, bind_Return.
  change (Codec.bytes_decode CryptographicSeal.COVENANT_MESSAGE)
    with (Return (lit "CHICKA_CHICKA_ORANGE")).
  rewrite bind_Return.
  unfold CryptographicSeal.get_public_key_pem. cbv zeta.
  now rewrite (bytes_decode_ascii _ Ha), bind_Return.
Qed.

(** What [verify_complete_seal] does with a dictionary that has all the
    entries it reads. *)
Lemma verify_complete_seal_entries
    (self : HierarchicalSeal.t) (d i : gmap pystr pyval)
    (covenant full_signature bundled : pyval) :
  d !! lit "covenant" = Some covenant ->
  d !! lit "integrity" = Some (VDict i) ->
  i !! lit "full_signature" = Some full_signature ->
  i !! lit "public_key" = Some bundled ->
  HierarchicalSeal.verify_complete_seal self (VDict d)
  = try_except
      (message ← encode covenant;
       CryptographicSeal.verify (HierarchicalSeal.crypto_seal self)
         (Some message) full_signature)
      (fun _ => Return false).
Proof.
  intros Hc Hi Hf Hp.
  unfold HierarchicalSeal.verify_complete_seal, subscript.
  rewrite Hc, Hi, !bind_Return, Hf, !bind_Return, Hp, bind_Return. cbv zeta.
  unfold CryptographicSeal.verify_sealed_covenant, subscript.
  lookups. now rewrite !bind_Return.
Qed.

(** X8.  Exporting and importing is the identity on every instance: the two
    PEM exports are non-empty ASCII strings, and the constructor given both
    returns the very same key pair, whatever key the random source would
    have produced. *)
Theorem export_then_import_is_identity
    (fresh : Ed25519PrivateKey) (k : CryptographicSeal.t) :
  pem_private_law -> pem_public_law ->
  exists private_pem public_pem,
    CryptographicSeal.get_private_key_pem k = Return private_pem /\
    CryptographicSeal.get_public_key_pem k = Return public_pem /\
    truthy (Some private_pem) = true /\ ascii_str private_pem = true /\
    truthy (Some public_pem) = true /\ ascii_str public_pem = true /\
    CryptographicSeal.__init__ fresh (Some private_pem) (Some public_pem)
    = Return k.
Proof.
  intros Hpriv Hpub.
  destruct (Hpriv (CryptographicSeal.private_key k)) as (Hn1 & Ha1 & _).
  destruct (Hpub (CryptographicSeal.public_key k)) as (Hn2 & Ha2 & _).
  destruct (init_of_exports fresh k Hpriv Hpub) as (pa & pb & H1 & H2 & H3).
  exists pa, pb.
  unfold CryptographicSeal.get_private_key_pem in H1.
  unfold CryptographicSeal.get_public_key_pem in H2. cbv zeta in H1, H2.
  rewrite (bytes_decode_ascii _ Ha1) in H1.
  rewrite (bytes_decode_ascii _ Ha2) in H2.
  injection H1 as <-. injection H2 as <-.
  unfold CryptographicSeal.get_private_key_pem,
    CryptographicSeal.get_public_key_pem. cbv zeta.
  rewrite (bytes_decode_ascii _ Ha1), (bytes_decode_ascii _ Ha2).
  repeat split; auto using truthy_code_points, code_points_ascii.
Qed.

(** X9.  When both PEM arguments are non-empty strings the constructor
    imports and never generates: its outcome does not depend on the random
    source, the keys of the instance it returns are the ones the loaders
    returned, and an error of the private key loader is raised as it is. *)
Theorem init_with_both_pems_imports
    (fresh : Ed25519PrivateKey) (private_key_pem public_key_pem : option pystr) :
  truthy private_key_pem = true -> truthy public_key_pem = true ->
  (forall fresh',
      CryptographicSeal.__init__ fresh private_key_pem public_key_pem
      = CryptographicSeal.__init__ fresh' private_key_pem public_key_pem) /\
  (forall seal,
      CryptographicSeal.__init__ fresh private_key_pem public_key_pem
      = Return seal ->
      exists priv pub,
        str_arg_encode private_key_pem = Return priv /\
        load_pem_private_key priv
        = Return (CryptographicSeal.private_key seal) /\
        str_arg_encode public_key_pem = Return pub /\
        load_pem_public_key pub
        = Return (CryptographicSeal.public_key seal)) /\
  (forall priv e,
      str_arg_encode private_key_pem = Return priv ->
      load_pem_private_key priv = Raise e ->
      CryptographicSeal.__init__ fresh private_key_pem public_key_pem
      = Raise e).
Proof.
  intros Ha Hb. unfold CryptographicSeal.__init__. rewrite Ha, Hb.
  cbn [andb]. split; [reflexivity|]. split.
  - intros seal.
    destruct (str_arg_encode private_key_pem) as [priv|]; [|discriminate].
    rewrite bind_Return.
    destruct (load_pem_private_key priv) as [sk|] eqn:Hsk; [|discriminate].
    rewrite bind_Return.
    destruct (str_arg_encode public_key_pem) as [pub|]; [|discriminate].
    rewrite bind_Return.
    destruct (load_pem_public_key pub) as [pk|] eqn:Hpk; [|discriminate].
    rewrite bind_Return. intros [= <-].
    exists priv, pub. repeat split; auto.
  - intros priv e -> Hl. now rewrite bind_Return, Hl.
Qed.

(** X10.  A sealed covenant verifies on the generated instance that
    created it: after the constructor was called with at most one non-empty
    PEM argument, [verify_sealed_covenant(create_sealed_covenant())]
    returns [True]. *)
Theorem generated_sealed_covenant_round_trip
    (fresh : Ed25519PrivateKey) (private_key_pem public_key_pem : option pystr) :
  sign_verify_law -> pem_public_law ->
  truthy private_key_pem && truthy public_key_pem = false ->
  exists seal sealed,
    CryptographicSeal.__init__ fresh private_key_pem public_key_pem
    = Return seal /\
    CryptographicSeal.create_sealed_covenant seal = Return sealed /\
    CryptographicSeal.verify_sealed_covenant seal sealed = Return true.
Proof.
  intros Hlaw Hpub Hgen.
  exists (CryptographicSeal.Seal fresh (sk_public_key fresh)). eexists.
  split; [unfold CryptographicSeal.__init__; now rewrite Hgen|].
  split; [now apply create_sealed_covenant_returns|].
  unfold CryptographicSeal.verify_sealed_covenant, subscript.
  lookups. rewrite bind_Return.
  change (encode (VStr (lit "CHICKA_CHICKA_ORANGE")))
    with (Return CryptographicSeal.COVENANT_MESSAGE).
  rewrite !bind_Return.
  rewrite (verify_decoded _ _ _ _ (b64decode_signature_text _)).
  cbn [from_option id CryptographicSeal.public_key
       CryptographicSeal.private_key].
  rewrite Hlaw. reflexivity.
Qed.
End Seals.

Section CompleteSeals.
Context `{B : Ed25519Backend}.

(** The dictionary [create_complete_seal] builds on a new instance. *)
Lemma create_complete_seal_returns (self : HierarchicalSeal.t) :
  pem_public_law ->
  let raw := sk_sign (CryptographicSeal.private_key
                        (HierarchicalSeal.crypto_seal self))
               CryptographicSeal.COVENANT_MESSAGE in
  exists i rest,
    HierarchicalSeal.create_complete_seal self
    = Return (VDict (<[lit "integrity" := VDict i]>
                    (<[lit "sigil" :=
                         VStr (HierarchicalSeal.hieroglyphic_sigil self)]>
                    (<[lit "covenant" :=
                         VStr (HierarchicalSeal.metaphoric_covenant self)]>
                     rest)))) /\
    i !! lit "hash" = Some (VStr (take 16 (signature_text raw) ++ lit "...")) /\
    i !! lit "algorithm" = Some (VStr (lit "Ed25519")) /\
    i !! lit "full_signature" = Some (VStr (signature_text raw)) /\
    i !! lit "public_key"
    = Some (VStr (Codec.code_points
                    (pk_public_bytes
                       (CryptographicSeal.public_key
                          (HierarchicalSeal.crypto_seal self))))).
Proof.
  intros Hpub raw. unfold HierarchicalSeal.create_complete_seal.
  rewrite (create_sealed_covenant_returns _ Hpub), bind_Return.
  unfold subscript. lookups. rewrite !bind_Return.
  cbn [slice_prefix]. rewrite bind_Return. cbn [add_str].
  rewrite !bind_Return.
  eexists. eexists. split; [reflexivity|].
  lookups. auto.
Qed.

(** X11.  A complete seal verifies on the instance that created it: for a
    new [HierarchicalSeal], [verify_complete_seal(create_complete_seal())]
    returns [True]. *)
Theorem complete_seal_round_trip (fresh : Ed25519PrivateKey) :
  sign_verify_law -> pem_public_law ->
  exists hs seal,
    HierarchicalSeal.__init__ fresh = Return hs /\
    HierarchicalSeal.create_complete_seal hs = Return seal /\
    HierarchicalSeal.verify_complete_seal hs seal = Return true.
Proof.
  intros Hlaw Hpub. eexists.
  edestruct (create_complete_seal_returns) as (i & rest & Hmk & _ & _ & Hf & Hp);
    [exact Hpub|].
  eexists. split; [reflexivity|]. split; [exact Hmk|].
  erewrite verify_complete_seal_entries;
    [|lookups; reflexivity|lookups; reflexivity|exact Hf|exact Hp].
  cbn [HierarchicalSeal.metaphoric_covenant HierarchicalSeal.crypto_seal].
  change (encode (VStr (lit "CHICKA_CHICKA_ORANGE")))
    with (Return CryptographicSeal.COVENANT_MESSAGE).
  rewrite bind_Return.
  rewrite (verify_decoded _ _ _ _ (b64decode_signature_text _)).
  cbn [from_option id CryptographicSeal.public_key
       CryptographicSeal.private_key].
  rewrite Hlaw. reflexivity.
Qed.

(** X12.  The tampering scenario of the demonstration.  Replacing the
    covenant of a complete seal by ["ALTERED_MESSAGE"] makes
    [verify_complete_seal] return [False] (the primitive rejecting the
    signature for the altered message); no exception reaches the caller. *)
Theorem tampered_complete_seal_returns_false (fresh : Ed25519PrivateKey) :
  pem_public_law ->
  pk_verify (sk_public_key fresh)
    (sk_sign fresh CryptographicSeal.COVENANT_MESSAGE) ALTERED_MESSAGE
  = false ->
  exists hs complete_seal,
    HierarchicalSeal.__init__ fresh = Return hs /\
    HierarchicalSeal.create_complete_seal hs = Return (VDict complete_seal) /\
    HierarchicalSeal.verify_complete_seal hs
      (VDict (<[lit "covenant" := VStr (lit "ALTERED_MESSAGE")]> complete_seal))
    = Return false.
Proof.
  intros Hpub Hrej. eexists.
  edestruct (create_complete_seal_returns) as (i & rest & Hmk & _ & _ & Hf & Hp);
    [exact Hpub|].
  eexists. split; [reflexivity|]. split; [exact Hmk|].
  erewrite verify_complete_seal_entries;
    [|lookups; reflexivity|lookups; reflexivity|exact Hf|exact Hp].
  cbn [HierarchicalSeal.crypto_seal].
  change (encode (VStr (lit "ALTERED_MESSAGE")))
    with (Return ALTERED_MESSAGE).
  rewrite bind_Return.
  rewrite (verify_decoded _ _ _ _ (b64decode_signature_text _)).
  cbn [from_option id CryptographicSeal.public_key
       CryptographicSeal.private_key].
  rewrite Hrej. reflexivity.
Qed.

(** X13.  Only the cryptographic layer is verified.  The answer of
    [verify_complete_seal] depends on the entry [covenant], on the entry
    [full_signature] of [integrity] and on the presence of the entry
    [public_key] of [integrity]; the sigil, the orientation, the
    verification block, the abbreviated hash, the algorithm name and the
    value of the bundled public key play no part. *)
Theorem verify_complete_seal_reads_integrity_only
    (self : HierarchicalSeal.t) (d d' i i' : gmap pystr pyval) :
  d !! lit "integrity" = Some (VDict i) ->
  d' !! lit "integrity" = Some (VDict i') ->
  d' !! lit "covenant" = d !! lit "covenant" ->
  i' !! lit "full_signature" = i !! lit "full_signature" ->
  (is_Some (i' !! lit "public_key") <-> is_Some (i !! lit "public_key")) ->
  HierarchicalSeal.verify_complete_seal self (VDict d')
  = HierarchicalSeal.verify_complete_seal self (VDict d).
Proof.
  intros Hi Hi' Hc Hf Hp.
  destruct (d !! lit "covenant") as [c|] eqn:Ec;
    [|unfold HierarchicalSeal.verify_complete_seal, subscript;
      now rewrite Hc, Ec].
  destruct (i !! lit "full_signature") as [fs|] eqn:Ef;
    [|unfold HierarchicalSeal.verify_complete_seal, subscript;
      now rewrite Hc, Ec, Hi, Hi', !bind_Return, Hf, Ef].
  destruct (i !! lit "public_key") as [pk|] eqn:Ep;
    destruct (i' !! lit "public_key") as [pk'|] eqn:Ep'.
  - rewrite (verify_complete_seal_entries self d' i' c fs pk')
      by assumption.
    now rewrite (verify_complete_seal_entries self d i c fs pk)
      by assumption.
  - exfalso. destruct Hp as [_ Hp]. destruct Hp as [? [=]]. eauto.
  - exfalso. destruct Hp as [Hp _]. destruct Hp as [? [=]]. eauto.
  - unfold HierarchicalSeal.verify_complete_seal, subscript.
    now rewrite Hc, Ec, Hi, Hi', !bind_Return, Hf, Ef, !bind_Return, Ep, Ep'.
Qed.
End CompleteSeals.

(** ** Runs of the further properties on the reference backend *)

Module MoreRuns.
Import Reference.

Lemma X1_witness :
  exists seal sig,
    CryptographicSeal.__init__ key_a (Some (lit "")) None = Return seal /\
    CryptographicSeal.sign seal (Some ALTERED_MESSAGE) = Return sig /\
    ascii_str sig = true /\
    length sig
    = (4 * ((length (@sk_sign backend key_a ALTERED_MESSAGE) + 2) / 3))%nat /\
    b64decode (VStr sig) = Return (@sk_sign backend key_a ALTERED_MESSAGE).
Proof.
  exact (@generated_sign_returns_base64_of_signature backend key_a
           (Some (lit "")) None (Some ALTERED_MESSAGE) eq_refl).
Defined.

Lemma X2_witness :
  exists k1 k2 private_pem public_pem seal sig,
    CryptographicSeal.__init__ key_a None None = Return k1 /\
    CryptographicSeal.__init__ key_b None None = Return k2 /\
    CryptographicSeal.get_private_key_pem k1 = Return private_pem /\
    CryptographicSeal.get_public_key_pem k2 = Return public_pem /\
    CryptographicSeal.__init__ key_a (Some private_pem) (Some public_pem)
    = Return seal /\
    CryptographicSeal.sign seal None = Return sig /\
    CryptographicSeal.verify seal None (VStr sig)
    = if @pk_verify backend (sk_public_key key_b)
           (sk_sign key_a CryptographicSeal.COVENANT_MESSAGE)
           CryptographicSeal.COVENANT_MESSAGE
      then Return true
      else Raise (ValueError (VerificationFailed InvalidSignature)).
Proof.
  exact (@mixed_import_sign_then_verify_outcome backend key_a key_b key_a None
           ReferenceFacts.pem_private ReferenceFacts.pem_public).
Defined.

Lemma X5_witness :
  CryptographicSeal.verify seal_a None (VStr (lit "AAAA"))
  = Raise (ValueError (VerificationFailed InvalidSignature)) /\
  ((VStr (lit "AAAA") = VNone /\
    ValueError (VerificationFailed InvalidSignature)
    = ValueError SignatureRequired) \/
   (VStr (lit "AAAA") <> VNone /\
    b64decode (VStr (lit "AAAA"))
    = Raise (ValueError (VerificationFailed InvalidSignature)) /\
    (ValueError (VerificationFailed InvalidSignature) = TypeError \/
     ValueError (VerificationFailed InvalidSignature)
     = ValueError NonAsciiArgument \/
     exists why,
       ValueError (VerificationFailed InvalidSignature) = BinasciiError why)) \/
   (exists raw,
       b64decode (VStr (lit "AAAA")) = Return raw /\
       pk_verify (CryptographicSeal.public_key seal_a) raw
         CryptographicSeal.COVENANT_MESSAGE = false /\
       ValueError (VerificationFailed InvalidSignature)
       = ValueError (VerificationFailed InvalidSignature))).
Proof.
  split; [vm_compute; reflexivity|].
  apply (@verify_exceptions backend seal_a None (VStr (lit "AAAA"))).
  vm_compute. reflexivity.
Defined.

Lemma X6_witness :
  let s := signature_text (tag (rev key_a) CryptographicSeal.COVENANT_MESSAGE) in
  let s' := lit " " ++ take 40 s ++ [10] ++ drop 40 s ++ lit "!" in
  CryptographicSeal.verify seal_a None (VStr s)
  = CryptographicSeal.verify seal_a None (VStr s').
Proof.
  intros s s'.
  apply (@verify_skips_insignificant_characters backend seal_a None s s');
    vm_compute; reflexivity.
Defined.

Lemma X7_witness :
  let raw := tag (rev key_a) CryptographicSeal.COVENANT_MESSAGE in
  b64decode (VStr (signature_text raw ++ lit "and more text")) = Return raw /\
  CryptographicSeal.verify seal_a None
    (VStr (signature_text raw ++ lit "and more text"))
  = CryptographicSeal.verify seal_a None (VStr (signature_text raw)).
Proof.
  intros raw.
  apply (@verify_ignores_text_after_padding backend seal_a None raw
           (lit "and more text")).
  - vm_compute. discriminate.
  - vm_compute. reflexivity.
Defined.

(** An instance whose two keys do not belong together is exported and
    imported unchanged as well. *)
Lemma X8_witness :
  exists private_pem public_pem,
    CryptographicSeal.get_private_key_pem
      (@CryptographicSeal.Seal backend key_a (rev key_b)) = Return private_pem /\
    CryptographicSeal.get_public_key_pem
      (@CryptographicSeal.Seal backend key_a (rev key_b)) = Return public_pem /\
    truthy (Some private_pem) = true /\ ascii_str private_pem = true /\
    truthy (Some public_pem) = true /\ ascii_str public_pem = true /\
    CryptographicSeal.__init__ key_b (Some private_pem) (Some public_pem)
    = Return (@CryptographicSeal.Seal backend key_a (rev key_b)).
Proof.
  exact (@export_then_import_is_identity backend key_b
           (@CryptographicSeal.Seal backend key_a (rev key_b))
           ReferenceFacts.pem_private ReferenceFacts.pem_public).
Defined.

Lemma X9_witness :
  let a := Some (Codec.code_points (@sk_private_bytes backend key_a)) in
  let b := Some (Codec.code_points (@pk_public_bytes backend (rev key_b))) in
  exists priv pub,
    str_arg_encode a = Return priv /\
    @load_pem_private_key backend priv = Return key_a /\
    str_arg_encode b = Return pub /\
    @load_pem_public_key backend pub = Return (rev key_b).
Proof.
  intros a b.
  exact (proj1 (proj2 (@init_with_both_pems_imports backend key_a a b
                         eq_refl eq_refl))
           (@CryptographicSeal.Seal backend key_a (rev key_b)) eq_refl).
Defined.

Lemma X10_witness :
  exists seal sealed,
    CryptographicSeal.__init__ key_a None
      (Some (lit "-----BEGIN PUBLIC KEY-----")) = Return seal /\
    CryptographicSeal.create_sealed_covenant seal = Return sealed /\
    CryptographicSeal.verify_sealed_covenant seal sealed = Return true.
Proof.
  exact (@generated_sealed_covenant_round_trip backend key_a None
           (Some (lit "-----BEGIN PUBLIC KEY-----"))
           ReferenceFacts.sign_verify ReferenceFacts.pem_public eq_refl).
Defined.

Lemma X11_witness :
  exists hs seal,
    HierarchicalSeal.__init__ key_a = Return hs /\
    HierarchicalSeal.create_complete_seal hs = Return seal /\
    HierarchicalSeal.verify_complete_seal hs seal = Return true.
Proof.
  exact (@complete_seal_round_trip backend key_a
           ReferenceFacts.sign_verify ReferenceFacts.pem_public).
Defined.

Lemma X12_witness :
  exists hs complete_seal,
    HierarchicalSeal.__init__ key_a = Return hs /\
    HierarchicalSeal.create_complete_seal hs = Return (VDict complete_seal) /\
    HierarchicalSeal.verify_complete_seal hs
      (VDict (<[lit "covenant" := VStr (lit "ALTERED_MESSAGE")]> complete_seal))
    = Return false.
Proof.
  apply (@tampered_complete_seal_returns_false backend key_a
           ReferenceFacts.pem_public).
  vm_compute. reflexivity.
Defined.

(** A seal with another sigil, a forged bundled key and no hash gets the
    answer of the seal it was made from. *)
Lemma X13_witness :
  let sig := VStr (signature_text
                     (tag (rev key_a) CryptographicSeal.COVENANT_MESSAGE)) in
  let i : gmap pystr pyval :=
    <[lit "hash" := VStr (lit "AQEBAQEBAQEBAQEB...")]>
    (<[lit "full_signature" := sig]>
    (<[lit "public_key" := VStr (lit "-----BEGIN PUBLIC KEY-----")]> ∅)) in
  let i' : gmap pystr pyval :=
    <[lit "full_signature" := sig]>
    (<[lit "public_key" := VStr (lit "forged")]> ∅) in
  let d : gmap pystr pyval :=
    <[lit "integrity" := VDict i]>
    (<[lit "sigil" := VStr (lit "sigil")]>
    (<[lit "covenant" := VStr (lit "CHICKA_CHICKA_ORANGE")]> ∅)) in
  let d' : gmap pystr pyval :=
    <[lit "integrity" := VDict i']>
    (<[lit "sigil" := VStr (lit "another")]>
    (<[lit "covenant" := VStr (lit "CHICKA_CHICKA_ORANGE")]> ∅)) in
  let hs := @HierarchicalSeal.Seal backend seal_a (lit "sigil")
              (lit "CHICKA_CHICKA_ORANGE") in
  HierarchicalSeal.verify_complete_seal hs (VDict d')
  = HierarchicalSeal.verify_complete_seal hs (VDict d).
Proof.
  intros sig i i' d d' hs.
  apply (@verify_complete_seal_reads_integrity_only backend hs d d' i i').
  - unfold d. lookups. reflexivity.
  - unfold d'. lookups. reflexivity.
  - unfold d, d'. lookups. reflexivity.
  - unfold i, i'. lookups. reflexivity.
  - unfold i, i'. lookups. split; intros _; eexists; reflexivity.
Defined.
End MoreRuns.
